(** * Elec-zoho-backend: token cache, webhook fan-out and coercion helpers

    A shallow embedding of the parts of [src/server.js] and [src/index.js]
    that carry state and failure handling:

    - [getZohoAccessToken] / [validateZohoToken], the cached OAuth
      credential shared by every CRM route;
    - the [Promise.allSettled] webhook fan-out of the [/api/claims] and
      [/api/vendors] routes;
    - [generateToken] and the [Name] field of [/api/sales/create];
    - the helpers [toYesNo], [toBoolean] and [toYesNoNumber];
    - [generateContactToken], the claim number and [formatDateForZoho];
    - the replies of [/api/zoho/refresh-token] and of the token step of
      [/api/vendors].

    [src/server.js] holds two programs one after the other: an early upload
    server (lines 1-112, module [ServerV1] below) and the full server (module
    [Server]).  [src/index.js] is module [Index]. *)

From Stdlib Require Import ZArith Bool List String Ascii DecimalString Lia.
Import ListNotations.

#[local] Set Warnings "-register-all".
Local Open Scope string_scope.
Local Open Scope Z_scope.

(* ================================================================= *)
(** ** JavaScript values *)

Module JS.

(** The values the modelled code handles.  Numbers are the integral doubles
    (every status code, timestamp and counter of the program is one) plus
    [NaN]; an object is its list of own properties. *)
Inductive JSVal : Type :=
| JUndefined
| JNull
| JBool (b : bool)
| JNum (n : Z)
| JNaN
| JStr (s : string)
| JObj (fields : list (string * JSVal)).

(** [ToBoolean]: what [if (v)], [!v] and [v && ...] test. *)
Definition truthy (v : JSVal) : bool :=
  match v with
  | JUndefined | JNull | JNaN => false
  | JBool b => b
  | JNum n => negb (n =? 0)
  | JStr s => negb (s =? "")%string
  | JObj _ => true
  end.

(** [v === w].  No coercion: operands of different types differ, [NaN]
    differs from itself.  Objects are compared by identity; the model keeps
    no identities and the code only ever compares against a primitive
    literal, so an object operand yields [false]. *)
Definition strict_eq (v w : JSVal) : bool :=
  match v, w with
  | JUndefined, JUndefined => true
  | JNull, JNull => true
  | JBool a, JBool b => Bool.eqb a b
  | JNum a, JNum b => a =? b
  | JStr a, JStr b => (a =? b)%string
  | _, _ => false
  end.

(** Property read [o.name] on an object; a missing property is [undefined]. *)
Fixpoint get_field (name : string) (fields : list (string * JSVal)) : JSVal :=
  match fields with
  | [] => JUndefined
  | (k, v) :: rest => if (k =? name)%string then v else get_field name rest
  end.

(** [n.toString()] for an integral number. *)
Definition num_to_string (n : Z) : string :=
  NilZero.string_of_int (Z.to_int n).

End JS.
Import JS.

(* ================================================================= *)
(** ** Asynchronous code over the module-level token variables *)

Module Async.

(** An exception value.  [response] is set on the error axios raises for a
    response whose status [validateStatus] refuses. *)
Record JSError : Type := mkError {
  message : string;
  response : option (Z * JSVal)
}.

(** [new Error(msg)], and every other error that has no [response]. *)
Definition Error (msg : string) : JSError :=
  {| message := msg; response := None |}.

(** What the network does with one request: a final HTTP response, or no
    response at all (refused, DNS, the request's [timeout] elapsed). *)
Inductive NetOutcome : Type :=
| Responded (status : Z) (data : JSVal)
| NetFail (msg : string).

Record AxiosResponse : Type := mkResponse {
  status : Z;
  data : JSVal
}.

(** A promise once settled, as [Promise.allSettled] reports it. *)
Inductive Settled : Type :=
| Fulfilled (value : AxiosResponse)
| Rejected (reason : JSError).

(** axios without a [validateStatus] option. *)
Definition default_validateStatus (s : Z) : bool := (200 <=? s) && (s <? 300).

(** How an axios call settles. *)
Definition axios_settle (validateStatus : Z -> bool) (o : NetOutcome) : Settled :=
  match o with
  | Responded s d =>
      if validateStatus s then Fulfilled {| status := s; data := d |}
      else Rejected {| message := "Request failed with status code " ++ num_to_string s;
                       response := Some (s, d) |}
  | NetFail m => Rejected (Error m)
  end.

(** The requests of the token code. *)
Inductive Request : Type :=
| ReqGet (url : string) (bearer : JSVal) (timeout : Z)
| ReqPost (url : string) (grant_type : string) (timeout : option Z).

(** [let zohoAccessToken = null; let tokenExpiryTime = null;]
    [tokenExpiryTime] only ever holds [null] or a number. *)
Record Cache : Type := mkCache {
  zohoAccessToken : JSVal;
  tokenExpiryTime : option Z
}.

Definition initial : Cache :=
  {| zohoAccessToken := JNull; tokenExpiryTime := None |}.

(** Truthiness of [tokenExpiryTime]. *)
Definition truthy_time (t : option Z) : bool :=
  match t with
  | None => false
  | Some e => negb (e =? 0)
  end.

(** [now < tokenExpiryTime], evaluated only behind [tokenExpiryTime &&]. *)
Definition before (now : Z) (t : option Z) : bool :=
  match t with
  | None => now <? 0
  | Some e => now <? e
  end.

(** An [async] function body: reads and writes of the two variables run
    without interruption; [Await] is where the function is suspended and
    other handlers run. *)
Inductive Prog (A : Type) : Type :=
| Ret (a : A)
| Throw (e : JSError)
| Read (k : Cache -> Prog A)
| Assign (c : Cache) (k : Prog A)
| Await (r : Request) (k : NetOutcome -> Prog A).

Arguments Ret {A} a.
Arguments Throw {A} e.
Arguments Read {A} k.
Arguments Assign {A} c k.
Arguments Await {A} r k.

Fixpoint bind {A B : Type} (p : Prog A) (f : A -> Prog B) : Prog B :=
  match p with
  | Ret a => f a
  | Throw e => Throw e
  | Read k => Read (fun c => bind (k c) f)
  | Assign c k => Assign c (bind k f)
  | Await r k => Await r (fun o => bind (k o) f)
  end.

(** [try { p } catch (error) { h error }]. *)
Fixpoint try_catch {A : Type} (p : Prog A) (h : JSError -> Prog A) : Prog A :=
  match p with
  | Ret a => Ret a
  | Throw e => h e
  | Read k => Read (fun c => try_catch (k c) h)
  | Assign c k => Assign c (try_catch k h)
  | Await r k => Await r (fun o => try_catch (k o) h)
  end.

Declare Scope prog_scope.
Delimit Scope prog_scope with prog.
Notation "x <- p ;; q" := (bind p (fun x => q))
  (at level 100, p at next level, right associativity) : prog_scope.
Notation "p ;; q" := (bind p (fun _ => q))
  (at level 100, right associativity) : prog_scope.
Local Open Scope prog_scope.

Definition get_token : Prog JSVal := Read (fun c => Ret (zohoAccessToken c)).
Definition get_expiry : Prog (option Z) := Read (fun c => Ret (tokenExpiryTime c)).
Definition set_token (v : JSVal) : Prog unit :=
  Read (fun c => Assign {| zohoAccessToken := v; tokenExpiryTime := tokenExpiryTime c |} (Ret tt)).
Definition set_expiry (t : option Z) : Prog unit :=
  Read (fun c => Assign {| zohoAccessToken := zohoAccessToken c; tokenExpiryTime := t |} (Ret tt)).

(** [await axios(...)]. *)
Definition axios (r : Request) (validateStatus : Z -> bool) : Prog AxiosResponse :=
  Await r (fun o =>
    match axios_settle validateStatus o with
    | Fulfilled v => Ret v
    | Rejected e => Throw e
    end).

(** [v.name]: a [TypeError] on [null] and [undefined], the property of an
    object, [undefined] on the other primitives (none of the names read by
    the code is a built-in property). *)
Definition member (v : JSVal) (name : string) : Prog JSVal :=
  match v with
  | JUndefined =>
      Throw (Error ("Cannot read properties of undefined (reading '" ++ name ++ "')"))
  | JNull =>
      Throw (Error ("Cannot read properties of null (reading '" ++ name ++ "')"))
  | JObj fields => Ret (get_field name fields)
  | _ => Ret JUndefined
  end.

(** *** Running one call on its own *)

Inductive Outcome (A : Type) : Type :=
| Returned (a : A)
| Thrown (e : JSError).
Arguments Returned {A} a.
Arguments Thrown {A} e.

(** The call runs to its end with no other handler in between; [net] answers
    its requests.  The result is the final cache, how the promise settles
    and the requests issued, in order. *)
Fixpoint run {A : Type} (net : Request -> NetOutcome) (p : Prog A) (c : Cache)
  : Cache * Outcome A * list Request :=
  match p with
  | Ret a => (c, Returned a, [])
  | Throw e => (c, Thrown e, [])
  | Read k => run net (k c) c
  | Assign c' k => run net k c'
  | Await r k =>
      let '(c', res, tr) := run net (k (net r)) c in (c', res, r :: tr)
  end.

(** *** Running up to the next suspension *)

Inductive Susp (A : Type) : Type :=
| Finished (res : Outcome A)
| Waiting (r : Request) (k : NetOutcome -> Prog A).
Arguments Finished {A} res.
Arguments Waiting {A} r k.

Fixpoint advance {A : Type} (p : Prog A) (c : Cache) : Cache * Susp A :=
  match p with
  | Ret a => (c, Finished (Returned a))
  | Throw e => (c, Finished (Thrown e))
  | Read k => advance (k c) c
  | Assign c' k => advance k c'
  | Await r k => (c, Waiting r k)
  end.

(** The request a suspended handler waits for. *)
Definition pending {A : Type} (s : Susp A) : option Request :=
  match s with
  | Finished _ => None
  | Waiting r _ => Some r
  end.

(** The answer [o] arrives and the handler runs to its next suspension. *)
Definition resume {A : Type} (s : Susp A) (o : NetOutcome) (c : Cache) : Cache * Susp A :=
  match s with
  | Finished res => (c, Finished res)
  | Waiting _ k => advance (k o) c
  end.

(** [inv_prog I p c]: started in cache [c], [p] is in a cache satisfying [I]
    each time it suspends and when it ends, whatever the answers, provided
    the handlers that run while it is suspended leave a cache satisfying
    [I]. *)
Fixpoint inv_prog {A : Type} (I : Cache -> Prop) (p : Prog A) (c : Cache) : Prop :=
  match p with
  | Ret _ | Throw _ => I c
  | Read k => inv_prog I (k c) c
  | Assign c' k => inv_prog I k c'
  | Await _ k => I c /\ forall o c2, I c2 -> inv_prog I (k o) c2
  end.

(** *** Handlers interleaved at their suspension points *)

Fixpoint update_nth {A : Type} (i : nat) (x : A) (l : list A) : list A :=
  match l, i with
  | [], _ => []
  | _ :: rest, O => x :: rest
  | y :: rest, S j => y :: update_nth j x rest
  end.

Section System.

(** The bodies a route may start; each was given its own [Date.now()]. *)
Variable handler : Prog JSVal -> Prop.

Record Sys : Type := mkSys {
  cache : Cache;
  tasks : list (Susp JSVal)
}.

Definition boot : Sys := {| cache := initial; tasks := [] |}.

(** The event loop takes one turn: a request arrives and its handler runs
    to its first [await], or a pending request is answered and the handler
    waiting for it runs to its next [await]. *)
Inductive turn : Sys -> Sys -> Prop :=
| turn_start (s : Sys) (p : Prog JSVal) :
    handler p ->
    turn s {| cache := fst (advance p (cache s));
              tasks := tasks s ++ [snd (advance p (cache s))] |}
| turn_resume (s : Sys) (i : nat) (r : Request) (k : NetOutcome -> Prog JSVal)
              (o : NetOutcome) :
    nth_error (tasks s) i = Some (Waiting r k) ->
    turn s {| cache := fst (advance (k o) (cache s));
              tasks := update_nth i (snd (advance (k o) (cache s))) (tasks s) |}.

Inductive reachable : Sys -> Prop :=
| reach_boot : reachable boot
| reach_turn (s s' : Sys) : reachable s -> turn s s' -> reachable s'.

End System.

End Async.
Import Async.
(* ================================================================= *)
(** ** [Promise.allSettled] over the requests of one fan-out *)

Module Promises.

(** The requests of one fan-out, in the order of [webhookUrls]: [None] while
    a request is in flight. *)
Definition Flight : Type := list (option Settled).

(** [webhookUrls.map(url => axios.post(url, ...))] starts every request
    before any of them is awaited. *)
Definition launch (n : nat) : Flight := repeat None n.

(** Request [i] settles.  [answers i] is how it settles when it does; every
    request does, its [timeout] option rejects it otherwise. *)
Inductive settles (answers : nat -> Settled) : Flight -> Flight -> Prop :=
| settles_at (i : nat) (fl : Flight) :
    nth_error fl i = Some None ->
    settles answers fl (update_nth i (Some (answers i)) fl).

Inductive schedule (answers : nat -> Settled) : Flight -> Flight -> Prop :=
| schedule_nil (fl : Flight) : schedule answers fl fl
| schedule_cons (fl fl' fl'' : Flight) :
    schedule answers fl fl' -> settles answers fl' fl'' -> schedule answers fl fl''.

(** [await Promise.allSettled(requests)]: the handler resumes, with the
    results in request order, once no request is in flight. *)
Fixpoint allSettled (fl : Flight) : option (list Settled) :=
  match fl with
  | [] => Some []
  | None :: _ => None
  | Some r :: rest =>
      match allSettled rest with
      | Some rs => Some (r :: rs)
      | None => None
      end
  end.

(** [l.map((x, index) => f index x)], counting from [i]. *)
Fixpoint mapi_from {A B : Type} (i : nat) (f : nat -> A -> B) (l : list A) : list B :=
  match l with
  | [] => []
  | x :: rest => f i x :: mapi_from (S i) f rest
  end.

Definition mapi {A B : Type} (f : nat -> A -> B) (l : list A) : list B :=
  mapi_from 0 f l.

(** The world of a fan-out: what becomes of the request sent to the [i]-th
    entry of [webhookUrls]. *)
Definition Net : Type := nat -> string -> NetOutcome.

(** The array [await Promise.allSettled(requests)] evaluates to. *)
Definition settle_all (validateStatus : Z -> bool) (net : Net) (urls : list string)
  : list Settled :=
  mapi (fun i url => axios_settle validateStatus (net i url)) urls.

End Promises.
Import Promises.
(* ================================================================= *)
(** ** Strings and dates *)

Module Text.

(** [s.split(",")]: one more piece than there are commas. *)
Fixpoint split_comma (s : string) : list string :=
  match s with
  | EmptyString => [EmptyString]
  | String c rest =>
      if Ascii.eqb c ","%char then EmptyString :: split_comma rest
      else match split_comma rest with
           | [] => [String c EmptyString]
           | piece :: pieces => String c piece :: pieces
           end
  end.

(** A string holds the UTF-8 bytes of the JavaScript string.  [trim] removes
    the code points of [WhiteSpace] and [LineTerminator].  Those of one
    byte: TAB, LF, VT, FF, CR and the space. *)
Definition is_space (c : ascii) : bool :=
  let n := nat_of_ascii c in
  (Nat.eqb n 32 || (Nat.leb 9 n && Nat.leb n 13))%bool.

(** Of two bytes: U+00A0 (C2 A0). *)
Definition is_space2 (a b : ascii) : bool :=
  (Nat.eqb (nat_of_ascii a) 194 && Nat.eqb (nat_of_ascii b) 160)%bool.

(** Of three bytes: U+1680 (E1 9A 80), U+2000 to U+200A (E2 80 80 to 8A),
    U+2028, U+2029, U+202F (E2 80 A8, A9, AF), U+205F (E2 81 9F), U+3000
    (E3 80 80) and U+FEFF (EF BB BF). *)
Definition is_space3 (a b c : ascii) : bool :=
  let x := nat_of_ascii a in
  let y := nat_of_ascii b in
  let z := nat_of_ascii c in
  ((Nat.eqb x 225 && Nat.eqb y 154 && Nat.eqb z 128)
   || (Nat.eqb x 226 && Nat.eqb y 128
       && ((Nat.leb 128 z && Nat.leb z 138)
           || Nat.eqb z 168 || Nat.eqb z 169 || Nat.eqb z 175))
   || (Nat.eqb x 226 && Nat.eqb y 129 && Nat.eqb z 159)
   || (Nat.eqb x 227 && Nat.eqb y 128 && Nat.eqb z 128)
   || (Nat.eqb x 239 && Nat.eqb y 187 && Nat.eqb z 191))%bool.

(** [s.trimStart()]. *)
Fixpoint trim_start (s : string) : string :=
  match s with
  | EmptyString => EmptyString
  | String a s1 =>
      if is_space a then trim_start s1
      else
        match s1 with
        | EmptyString => s
        | String b s2 =>
            if is_space2 a b then trim_start s2
            else
              match s2 with
              | EmptyString => s
              | String c s3 => if is_space3 a b c then trim_start s3 else s
              end
        end
  end.

(** [s] is made of white space only. *)
Fixpoint blank (s : string) : bool :=
  match s with
  | EmptyString => true
  | String a s1 =>
      if is_space a then blank s1
      else
        match s1 with
        | EmptyString => false
        | String b s2 =>
            if is_space2 a b then blank s2
            else
              match s2 with
              | EmptyString => false
              | String c s3 => if is_space3 a b c then blank s3 else false
              end
        end
  end.

(** [s.trimEnd()]: [s] up to where the rest is white space only. *)
Fixpoint trim_end (s : string) : string :=
  match s with
  | EmptyString => EmptyString
  | String a rest => if blank s then EmptyString else String a (trim_end rest)
  end.

Definition trim (s : string) : string := trim_end (trim_start s).

(** [process.env.X ? process.env.X.split(",").map(u => u.trim()) : []];
    an unset variable is [None], and the empty string is falsy. *)
Definition webhook_urls (env : option string) : list string :=
  match env with
  | None => []
  | Some s => if (s =? "")%string then [] else map trim (split_comma s)
  end.

(** [s.padStart(2, "0")]. *)
Definition padStart2 (s : string) : string :=
  match String.length s with
  | O => "00" ++ s
  | S O => "0" ++ s
  | _ => s
  end.

(** [s.slice(-2)]. *)
Definition slice_last2 (s : string) : string :=
  substring (String.length s - 2) 2 s.

(** The local-time fields of a [Date]; [getMonth] counts from 0. *)
Record Date : Type := mkDate {
  getFullYear : Z;
  getMonth : Z;
  getDate : Z;
  getHours : Z;
  getMinutes : Z;
  getSeconds : Z
}.

(** [const pad = (n) => n.toString().padStart(2, "0")]. *)
Definition pad (n : Z) : string := padStart2 (num_to_string n).

(** [\d] of a regular expression: an ASCII digit. *)
Definition is_digit (c : ascii) : bool :=
  let n := nat_of_ascii c in (Nat.leb 48 n && Nat.leb n 57)%bool.

(** [/^\d{4}-\d{2}-\d{2}$/.test(s)]. *)
Definition date_shaped (s : string) : bool :=
  match list_ascii_of_string s with
  | [y1; y2; y3; y4; h1; m1; m2; h2; d1; d2] =>
      (is_digit y1 && is_digit y2 && is_digit y3 && is_digit y4
       && Ascii.eqb h1 "-" && is_digit m1 && is_digit m2
       && Ascii.eqb h2 "-" && is_digit d1 && is_digit d2)%bool
  | _ => false
  end.

End Text.
Import Text.
(* ================================================================= *)
(** ** src/server.js, the full server (from line 112) *)

Local Open Scope prog_scope.

(** What a route hands to [res.status(code).json(body)]. *)
Record Response : Type := mkReply {
  code : Z;
  body : JSVal
}.

(** [results.forEach((result, index) => ...)] as a fold over the results. *)
Fixpoint forEach_from {T R : Type} (i : nat) (f : T -> R -> nat -> T) (l : list R) (acc : T) : T :=
  match l with
  | [] => acc
  | r :: rest => forEach_from (S i) f rest (f acc r i)
  end.

Definition forEach {T R : Type} (f : T -> R -> nat -> T) (l : list R) (acc : T) : T :=
  forEach_from 0 f l acc.

(** [webhookUrls[index]]. *)
Definition at_index (webhookUrls : list string) (index : nat) : JSVal :=
  match nth_error webhookUrls index with
  | Some u => JStr u
  | None => JUndefined
  end.

(** [validateStatus: (status) => status >= 200 && status < 500]. *)
Definition webhook_validateStatus (status : Z) : bool :=
  (200 <=? status) && (status <? 500).

(** [result.status === "fulfilled" && result.value.status < 400]. *)
Definition delivered (result : Settled) : bool :=
  match result with
  | Fulfilled value => status value <? 400
  | Rejected _ => false
  end.

(** The body of the counting [forEach] shared by the [/api/claims] and
    [/api/vendors] handlers that keep two counters. *)
Definition count_result (acc : Z * Z) (result : Settled) (index : nat) : Z * Z :=
  if delivered result then (fst acc + 1, snd acc) else (fst acc, snd acc + 1).

Module Server.

Definition probe_url : string := "https://www.zohoapis.in/crm/v2/Info/Modules".
Definition token_url : string := "https://accounts.zoho.in/oauth/v2/token".

(** server.js:136. *)
Definition validateZohoToken (token : JSVal) : Prog bool :=
  try_catch
    (response <- axios (ReqGet probe_url token 5000) default_validateStatus;;
     Ret (status response =? 200))
    (fun _ => Ret false).

(** server.js:170-214, the part of [getZohoAccessToken] after the cache
    test.  The [catch] block reads [error.response.data.error] when the
    error has a [response]. *)
Definition getZohoAccessToken_refresh (now : Z) : Prog JSVal :=
  try_catch
    (response <- axios (ReqPost token_url "refresh_token" (Some 10000))
                       default_validateStatus;;
     access_token <- member (data response) "access_token";;
     if negb (truthy access_token) then Throw (Error "No access token in response")
     else
       (set_token access_token;;
        set_expiry (Some (now + 55 * 60 * 1000));;
        get_token))
    (fun error =>
       set_token JNull;;
       set_expiry None;;
       match response error with
       | Some (_, d) => (member d "error";; Ret tt)
       | None => Ret tt
       end;;
       Throw (Error ("Failed to get Zoho access token: " ++ message error))).

(** server.js:154; [now] is the [Date.now()] of line 155. *)
Definition getZohoAccessToken (now : Z) : Prog JSVal :=
  c <- Read Ret;;
  if truthy (zohoAccessToken c) && truthy_time (tokenExpiryTime c)
     && before now (tokenExpiryTime c)
  then
    (isValid <- validateZohoToken (zohoAccessToken c);;
     if (isValid : bool) then get_token
     else
       (set_token JNull;;
        set_expiry None;;
        getZohoAccessToken_refresh now))
  else getZohoAccessToken_refresh now.

(** server.js:1960, [GET /api/zoho/refresh-token], up to the token it
    obtains. *)
Definition refresh_token_route (now : Z) : Prog JSVal :=
  set_token JNull;;
  set_expiry None;;
  getZohoAccessToken now.

(** Every handler of the file that touches the two variables: the routes
    call [getZohoAccessToken] and do not assign them, except the refresh
    route. *)
Inductive handler : Prog JSVal -> Prop :=
| handler_get (now : Z) : handler (getZohoAccessToken now)
| handler_refresh (now : Z) : handler (refresh_token_route now).

(** server.js:235. *)
Definition generateToken (now : Date) : string :=
  "CS" ++
  slice_last2 (num_to_string (getFullYear now)) ++
  pad (getMonth now + 1) ++
  pad (getDate now) ++
  pad (getHours now) ++
  pad (getMinutes now) ++
  pad (getSeconds now).

(** server.js:1356, the [Name] and [Contact_Name] of the Cash Slip payload;
    the other fields are copied from the request like [Contact_Name].
    [now] is the clock when the handler builds the payload. *)
Record CashSlip : Type := mkCashSlip {
  Name : string;
  Contact_Name : JSVal
}.

Definition sales_create_payload (now : Date) (contactId : JSVal) : CashSlip :=
  {| Name := generateToken now; Contact_Name := contactId |}.

(** server.js:290. *)
Definition toYesNo (value : JSVal) : string :=
  if strict_eq value (JBool true)
     || strict_eq value (JStr "true")
     || strict_eq value (JNum 1)
     || strict_eq value (JStr "1")
     || strict_eq value (JStr "Yes")
     || strict_eq value (JStr "yes")
     || strict_eq value (JStr "on")
  then "Yes" else "No".

(** server.js:305. *)
Definition toBoolean (value : JSVal) : bool :=
  if strict_eq value (JBool true)
     || strict_eq value (JStr "true")
     || strict_eq value (JNum 1)
     || strict_eq value (JStr "1")
     || strict_eq value (JStr "Yes")
     || strict_eq value (JStr "yes")
     || strict_eq value (JStr "on")
  then true else false.

(** server.js:320. *)
Definition toYesNoNumber (value : JSVal) : Z :=
  if strict_eq value (JBool true)
     || strict_eq value (JStr "true")
     || strict_eq value (JNum 1)
     || strict_eq value (JStr "1")
     || strict_eq value (JStr "Yes")
     || strict_eq value (JStr "yes")
     || strict_eq value (JStr "on")
  then 1 else 0.

(** server.js:415-440 of [POST /api/claims]: what follows
    [await Promise.allSettled(requests)]. *)
Definition claims_report (results : list Settled) : Response :=
  let counts := forEach count_result results (0, 0) in
  {| code := 200;
     body := JObj [("success", JBool true);
                   ("message", JStr "Claim processed");
                   ("webhookSuccess", JNum (fst counts));
                   ("webhookFailed", JNum (snd counts))] |}.

(** server.js:396-440 of [POST /api/claims]; [env] is
    [process.env.WEBHOOK_URLS]. *)
Definition claims_webhooks (env : option string) (net : Net) : Response :=
  let webhookUrls := webhook_urls env in
  if (List.length webhookUrls =? 0)%nat then
    {| code := 500;
       body := JObj [("success", JBool false);
                     ("message", JStr "No webhook URLs configured")] |}
  else claims_report (settle_all webhook_validateStatus net webhookUrls).

(** An element of [webhookResults.details]. *)
Record Detail : Type := mkDetail {
  url : JSVal;
  outcome : string;
  statusCode : option Z;
  error : option string
}.

Record WebhookResults : Type := mkResults {
  successCount : Z;
  failureCount : Z;
  details : list Detail
}.

(** [result.reason?.message || "Unknown error"]. *)
Definition reason_message (result : Settled) : string :=
  match result with
  | Fulfilled _ => "Unknown error"
  | Rejected reason =>
      if (message reason =? "")%string then "Unknown error" else message reason
  end.

(** server.js:981-1003, the body of the [forEach] of [POST /api/vendors]. *)
Definition vendor_record (webhookUrls : list string)
  (webhookResults : WebhookResults) (result : Settled) (index : nat) : WebhookResults :=
  match result with
  | Fulfilled value =>
      if status value <? 400 then
        {| successCount := successCount webhookResults + 1;
           failureCount := failureCount webhookResults;
           details := details webhookResults ++
             [{| url := at_index webhookUrls index; outcome := "success";
                 statusCode := Some (status value); error := None |}] |}
      else
        {| successCount := successCount webhookResults;
           failureCount := failureCount webhookResults + 1;
           details := details webhookResults ++
             [{| url := at_index webhookUrls index; outcome := "failed";
                 statusCode := None; error := Some (reason_message result) |}] |}
  | Rejected _ =>
      {| successCount := successCount webhookResults;
         failureCount := failureCount webhookResults + 1;
         details := details webhookResults ++
           [{| url := at_index webhookUrls index; outcome := "failed";
               statusCode := None; error := Some (reason_message result) |}] |}
  end.

(** server.js:963-1004 of [POST /api/vendors]; [env] is
    [process.env.VENDOR_WEBHOOK_URLS].  The value is the [webhookResults]
    of the 200 response. *)
Definition vendor_webhooks (env : option string) (net : Net) : WebhookResults :=
  let webhookUrls := webhook_urls env in
  let webhookResults := {| successCount := 0; failureCount := 0; details := [] |} in
  if (0 <? List.length webhookUrls)%nat then
    forEach (vendor_record webhookUrls)
            (settle_all webhook_validateStatus net webhookUrls) webhookResults
  else webhookResults.

(** server.js:221. *)
Definition generateContactToken (now : Date) : string :=
  "CE" ++
  pad (getDate now) ++
  pad (getMonth now + 1) ++
  slice_last2 (num_to_string (getFullYear now)) ++
  pad (getHours now) ++
  pad (getMinutes now) ++
  pad (getSeconds now).

(** server.js:350, [data.claimNumber] of [POST /api/claims]: the year is
    appended as a number, in full. *)
Definition claimNumber (now : Date) : string :=
  "CE" ++
  pad (getDate now) ++
  pad (getMonth now + 1) ++
  num_to_string (getFullYear now) ++
  pad (getHours now) ++
  pad (getMinutes now) ++
  pad (getSeconds now).

(** server.js:258.  [newDate v] stands for the built-in [Date]: [None] when
    [isNaN(new Date(v).getTime())], otherwise
    [new Date(v).toISOString().split("T")[0]]. *)
Definition formatDateForZoho (newDate : JSVal -> option string) (dateValue : JSVal)
  : JSVal :=
  if negb (truthy dateValue) then JNull
  else
    match dateValue with
    | JStr s =>
        if date_shaped s then dateValue
        else match newDate dateValue with
             | None => JNull
             | Some day => JStr day
             end
    | _ =>
        match newDate dateValue with
        | None => JNull
        | Some day => JStr day
        end
    end.

(** server.js:1960, [GET /api/zoho/refresh-token] with its reply.
    [toISOString t] stands for [new Date(t).toISOString()], [None] when it
    throws its [RangeError]; [new Date(null)] is the epoch. *)
Definition refresh_token_reply (toISOString : Z -> option string) (now : Z)
  : Prog Response :=
  try_catch
    (set_token JNull;;
     set_expiry None;;
     token <- getZohoAccessToken now;;
     expiry <- get_expiry;;
     match toISOString (match expiry with Some e => e | None => 0 end) with
     | Some iso =>
         Ret {| code := 200;
                body := JObj [("success", JBool true);
                              ("message", JStr "Token refreshed successfully");
                              ("tokenExpiry", JStr iso)] |}
     | None => Throw (Error "Invalid time value")
     end)
    (fun error =>
       Ret {| code := 500;
              body := JObj [("success", JBool false);
                            ("message", JStr "Failed to refresh token");
                            ("error", JStr (message error))] |}).

(** server.js:686-702 of [POST /api/vendors]: the token is obtained in a
    [try] of its own; the handler replies 401 at once when that fails, and
    goes on with the token otherwise. *)
Definition vendors_authenticate (now : Z) : Prog (Response + JSVal) :=
  try_catch
    (token <- getZohoAccessToken now;; Ret (inr token))
    (fun tokenError =>
       Ret (inl {| code := 401;
                   body := JObj [("success", JBool false);
                                 ("message", JStr "Failed to authenticate with Zoho");
                                 ("error",
                                  JObj [("code", JStr "AUTH_FAILED");
                                        ("details", JStr (message tokenError));
                                        ("message",
                                         JStr "Invalid OAuth token or credentials");
                                        ("status", JStr "error")])] |})).

(** server.js:396-413 of [POST /api/claims], up to the [await]: the reply
    when no URL is configured, otherwise the requests, every one started
    by [webhookUrls.map] before the handler awaits any. *)
Definition claims_launch (env : option string) : Response + Flight :=
  let webhookUrls := webhook_urls env in
  if (List.length webhookUrls =? 0)%nat then
    inl {| code := 500;
           body := JObj [("success", JBool false);
                         ("message", JStr "No webhook URLs configured")] |}
  else inr (launch (List.length webhookUrls)).

(** server.js:415-440: the handler is suspended at
    [await Promise.allSettled(requests)]; [None] while it is, its reply
    once it has resumed with the results. *)
Definition claims_resume (fl : Flight) : option Response :=
  match allSettled fl with
  | Some results => Some (claims_report results)
  | None => None
  end.

(** server.js:968-1004 of [POST /api/vendors], from the [await] on: with
    no URL the handler does not await; otherwise [None] while it is
    suspended, [webhookResults] once it has resumed. *)
Definition vendor_resume (env : option string) (fl : Flight) : option WebhookResults :=
  let webhookUrls := webhook_urls env in
  let webhookResults := {| successCount := 0; failureCount := 0; details := [] |} in
  if (0 <? List.length webhookUrls)%nat then
    match allSettled fl with
    | Some results => Some (forEach (vendor_record webhookUrls) results webhookResults)
    | None => None
    end
  else Some webhookResults.

End Server.
(* ================================================================= *)
(** ** src/server.js, the upload server (lines 1-112) *)

Module ServerV1.

(** [r.status === "fulfilled"]. *)
Definition fulfilled (r : Settled) : bool :=
  match r with
  | Fulfilled _ => true
  | Rejected _ => false
  end.

(** server.js:79-87: what follows [await Promise.allSettled(requests)];
    [fileSaved] is [!!file]. *)
Definition claims_report (fileSaved : bool) (results : list Settled) : Response :=
  let successCount := Z.of_nat (List.length (filter fulfilled results)) in
  {| code := 200;
     body := JObj [("success", JBool true);
                   ("message", JStr "Claim and file processed");
                   ("fileSaved", JBool fileSaved);
                   ("webhookSuccess", JNum successCount)] |}.

(** server.js:66-87 of [POST /api/claims]: axios is called without
    [validateStatus], and the list is not tested for emptiness. *)
Definition claims_webhooks (env : option string) (fileSaved : bool) (net : Net) : Response :=
  let webhookUrls := webhook_urls env in
  claims_report fileSaved (settle_all default_validateStatus net webhookUrls).

End ServerV1.

(* ================================================================= *)
(** ** src/index.js *)

Module Index.

Definition token_url : string := "https://accounts.zoho.in/oauth/v2/token".

(** index.js:41; [now] is the [Date.now()] of line 42.  There is no
    [try], no probe and no test of [response.data.access_token]. *)
Definition getZohoAccessToken (now : Z) : Prog JSVal :=
  c <- Read Ret;;
  if truthy (zohoAccessToken c) && truthy_time (tokenExpiryTime c)
     && before now (tokenExpiryTime c)
  then get_token
  else
    (response <- axios (ReqPost token_url "refresh_token" None) default_validateStatus;;
     access_token <- member (data response) "access_token";;
     set_token access_token;;
     set_expiry (Some (now + 55 * 60 * 1000));;
     get_token).

Inductive handler : Prog JSVal -> Prop :=
| handler_get (now : Z) : handler (getZohoAccessToken now).

(** index.js:652. *)
Definition generateToken (now : Date) : string :=
  "CS" ++
  slice_last2 (num_to_string (getFullYear now)) ++
  pad (getMonth now + 1) ++
  pad (getDate now) ++
  pad (getHours now) ++
  pad (getMinutes now) ++
  pad (getSeconds now).

(** index.js:667, [const tokenNumber = generateToken();] at module level:
    evaluated when the file is loaded, at [loaded]. *)
Definition tokenNumber (loaded : Date) : string := generateToken loaded.

Record CashSlip : Type := mkCashSlip {
  Name : string;
  Contact_Name : JSVal
}.

(** index.js:720, the [Name] and [Contact_Name] of the Cash Slip payload
    built by a request handled at [now]. *)
Definition sales_create_payload (loaded now : Date) (contactId : JSVal) : CashSlip :=
  {| Name := tokenNumber loaded; Contact_Name := contactId |}.

(** index.js:971, declared inside the [/api/trail] handler. *)
Definition toYesNo (value : JSVal) : string :=
  if strict_eq value (JBool true)
     || strict_eq value (JStr "true")
     || strict_eq value (JNum 1)
     || strict_eq value (JStr "1")
     || strict_eq value (JStr "Yes")
     || strict_eq value (JStr "yes")
     || strict_eq value (JStr "on")
  then "Yes" else "No".

(** index.js:986. *)
Definition toBoolean (value : JSVal) : bool :=
  if strict_eq value (JBool true)
     || strict_eq value (JStr "true")
     || strict_eq value (JNum 1)
     || strict_eq value (JStr "1")
     || strict_eq value (JStr "Yes")
     || strict_eq value (JStr "yes")
     || strict_eq value (JStr "on")
  then true else false.

(** index.js:1001. *)
Definition toYesNoNumber (value : JSVal) : Z :=
  if strict_eq value (JBool true)
     || strict_eq value (JStr "true")
     || strict_eq value (JNum 1)
     || strict_eq value (JStr "1")
     || strict_eq value (JStr "Yes")
     || strict_eq value (JStr "yes")
     || strict_eq value (JStr "on")
  then 1 else 0.

(** index.js:151-178 of [POST /api/claims]. *)
Definition claims_report (results : list Settled) : Response :=
  let counts := forEach count_result results (0, 0) in
  {| code := 200;
     body := JObj [("success", JBool true);
                   ("message", JStr "Claim processed");
                   ("webhookSuccess", JNum (fst counts));
                   ("webhookFailed", JNum (snd counts))] |}.

(** index.js:132-178 of [POST /api/claims]. *)
Definition claims_webhooks (env : option string) (net : Net) : Response :=
  let webhookUrls := webhook_urls env in
  if (List.length webhookUrls =? 0)%nat then
    {| code := 500;
       body := JObj [("success", JBool false);
                     ("message", JStr "No webhook URLs configured")] |}
  else claims_report (settle_all webhook_validateStatus net webhookUrls).

(** index.js:455-481 of [POST /api/vendors]. *)
Definition vendor_report (results : list Settled) : Response :=
  let counts := forEach count_result results (0, 0) in
  {| code := 200;
     body := JObj [("success", JBool true);
                   ("message", JStr "Vendor processed successfully");
                   ("webhookSuccess", JNum (fst counts));
                   ("webhookFailed", JNum (snd counts))] |}.

(** index.js:433-481 of [POST /api/vendors]. *)
Definition vendor_webhooks (env : option string) (net : Net) : Response :=
  let webhookUrls := webhook_urls env in
  if (List.length webhookUrls =? 0)%nat then
    {| code := 500;
       body := JObj [("success", JBool false);
                     ("message", JStr "No vendor webhook URLs configured")] |}
  else vendor_report (settle_all webhook_validateStatus net webhookUrls).

(** index.js:552. *)
Definition generateContactToken (now : Date) : string :=
  "CE" ++
  pad (getDate now) ++
  pad (getMonth now + 1) ++
  slice_last2 (num_to_string (getFullYear now)) ++
  pad (getHours now) ++
  pad (getMinutes now) ++
  pad (getSeconds now).

(** index.js:82, [data.claimNumber] of [POST /api/claims]. *)
Definition claimNumber (now : Date) : string :=
  "CE" ++
  pad (getDate now) ++
  pad (getMonth now + 1) ++
  num_to_string (getFullYear now) ++
  pad (getHours now) ++
  pad (getMinutes now) ++
  pad (getSeconds now).

(** index.js:1039, declared inside the [/api/trail] handler; [newDate] as
    for server.js. *)
Definition formatDateForZoho (newDate : JSVal -> option string) (dateValue : JSVal)
  : JSVal :=
  if negb (truthy dateValue) then JNull
  else
    match dateValue with
    | JStr s =>
        if date_shaped s then dateValue
        else match newDate dateValue with
             | None => JNull
             | Some day => JStr day
             end
    | _ =>
        match newDate dateValue with
        | None => JNull
        | Some day => JStr day
        end
    end.

(** index.js:132-149 of [POST /api/claims], up to the [await]. *)
Definition claims_launch (env : option string) : Response + Flight :=
  let webhookUrls := webhook_urls env in
  if (List.length webhookUrls =? 0)%nat then
    inl {| code := 500;
           body := JObj [("success", JBool false);
                         ("message", JStr "No webhook URLs configured")] |}
  else inr (launch (List.length webhookUrls)).

(** index.js:151-178: [None] while the handler is suspended at
    [await Promise.allSettled(requests)], its reply once it has resumed. *)
Definition claims_resume (fl : Flight) : option Response :=
  match allSettled fl with
  | Some results => Some (claims_report results)
  | None => None
  end.

End Index.
(* ================================================================= *)
(** ** Vocabulary of the properties *)

(** The literals the coercion helpers accept. *)
Definition truthy_literals : list JSVal :=
  [JBool true; JStr "true"; JNum 1; JStr "1"; JStr "Yes"; JStr "yes"; JStr "on"].

(** The disjunction every helper tests. *)
Definition accepted (value : JSVal) : bool :=
  existsb (strict_eq value) truthy_literals.

(** A variable holds something: it is neither [null] nor [undefined]. *)
Definition is_set (v : JSVal) : bool :=
  match v with
  | JNull | JUndefined => false
  | _ => true
  end.

Definition time_set (t : option Z) : bool :=
  match t with
  | Some _ => true
  | None => false
  end.

(** Token and expiry are both set or both absent. *)
Definition paired (c : Cache) : Prop :=
  is_set (zohoAccessToken c) = time_set (tokenExpiryTime c).

(** A usable credential is cached at [now]: the test of the first [if] of
    [getZohoAccessToken]. *)
Definition cached_at (now : Z) (c : Cache) : bool :=
  truthy (zohoAccessToken c) && truthy_time (tokenExpiryTime c)
  && before now (tokenExpiryTime c).

Definition is_exchange (r : Request) : bool :=
  match r with
  | ReqPost _ _ _ => true
  | ReqGet _ _ _ => false
  end.

(** Number of token exchanges among the requests of a call. *)
Definition exchanges (tr : list Request) : nat :=
  List.length (filter is_exchange tr).

(** The credential a successful exchange hands out. *)
Definition exchanged (o : NetOutcome) : option JSVal :=
  match axios_settle default_validateStatus o with
  | Rejected _ => None
  | Fulfilled v =>
      match data v with
      | JObj fields =>
          if truthy (get_field "access_token" fields)
          then Some (get_field "access_token" fields) else None
      | _ => None
      end
  end.

(** The token endpoint did not hand out a credential: no response, a
    refused status, or a body without a truthy [access_token]. *)
Definition exchange_failed (o : NetOutcome) : Prop := exchanged o = None.

(** The probe of [validateZohoToken] passes: a response with status 200. *)
Definition probe_passes (o : NetOutcome) : bool :=
  match o with
  | Responded s _ => s =? 200
  | NetFail _ => false
  end.

Definition fifty_five_minutes : Z := 55 * 60 * 1000.

(** The places that fan a payload out to webhooks. *)
Inductive CallSite : Type :=
| ServerV1_claims
| Server_claims
| Server_vendors
| Index_claims
| Index_vendors.

(** What a call site produces: the reply of the route, or, for
    [/api/vendors] of server.js, the [webhookResults] of its reply. *)
Inductive Answer : Type :=
| Replied (r : Response)
| Results (w : Server.WebhookResults).

Definition dispatch (site : CallSite) (env : option string) (fileSaved : bool) (net : Net)
  : Answer :=
  match site with
  | ServerV1_claims => Replied (ServerV1.claims_webhooks env fileSaved net)
  | Server_claims => Replied (Server.claims_webhooks env net)
  | Server_vendors => Results (Server.vendor_webhooks env net)
  | Index_claims => Replied (Index.claims_webhooks env net)
  | Index_vendors => Replied (Index.vendor_webhooks env net)
  end.

(** The call site refuses to run without destinations. *)
Definition configuration_error (a : Answer) : bool :=
  match a with
  | Replied r => code r =? 500
  | Results _ => false
  end.

(** The detail entry [/api/vendors] of server.js pushes for one result. *)
Definition detail_of (webhookUrls : list string) (index : nat) (result : Settled)
  : Server.Detail :=
  if delivered result then
    {| Server.url := at_index webhookUrls index; Server.outcome := "success";
       Server.statusCode :=
         match result with Fulfilled v => Some (status v) | Rejected _ => None end;
       Server.error := None |}
  else
    {| Server.url := at_index webhookUrls index; Server.outcome := "failed";
       Server.statusCode := None;
       Server.error := Some (Server.reason_message result) |}.

Definition count_if {A : Type} (f : A -> bool) (l : list A) : Z :=
  Z.of_nat (List.length (filter f l)).

Definition failed (result : Settled) : bool := negb (delivered result).

(** What is known of a flight under way: it has one slot per request, and a
    settled slot holds the answer of its own request. *)
Definition partial (answers : nat -> Settled) (n : nat) (fl : Flight) : Prop :=
  List.length fl = n
  /\ forall i r, nth_error fl i = Some (Some r) -> r = answers i.

(** The two requests of the token code of server.js. *)
Definition exchange_req : Request :=
  ReqPost Server.token_url "refresh_token" (Some 10000).

Definition probe_req (token : JSVal) : Request :=
  ReqGet Server.probe_url token 5000.

(** The message of the error the [try] block of [getZohoAccessToken] raises
    on a failed exchange: the one axios gives, the one of reading
    [access_token] off a missing body, or "No access token in response". *)
Definition upstream_message (o : NetOutcome) : string :=
  match axios_settle default_validateStatus o with
  | Rejected e => message e
  | Fulfilled v =>
      match data v with
      | JNull => "Cannot read properties of null (reading 'access_token')"
      | JUndefined => "Cannot read properties of undefined (reading 'access_token')"
      | _ => "No access token in response"
      end
  end.

(** The error a failed exchange ends [getZohoAccessToken] of server.js with:
    the wrapped upstream message, unless the refused response has no body
    for the [catch] block to read [error] from. *)
Definition refresh_error (o : NetOutcome) : JSError :=
  match axios_settle default_validateStatus o with
  | Rejected {| response := Some (_, JNull) |} =>
      Error "Cannot read properties of null (reading 'error')"
  | Rejected {| response := Some (_, JUndefined) |} =>
      Error "Cannot read properties of undefined (reading 'error')"
  | _ => Error ("Failed to get Zoho access token: " ++ upstream_message o)
  end.

(** What the exchange part of [getZohoAccessToken] of server.js comes to. *)
Definition refresh_result (now : Z) (o : NetOutcome)
  : Cache * Outcome JSVal * list Request :=
  match exchanged o with
  | Some tok =>
      ({| zohoAccessToken := tok; tokenExpiryTime := Some (now + fifty_five_minutes) |},
       Returned tok, [exchange_req])
  | None => (initial, Thrown (refresh_error o), [exchange_req])
  end.

Definition index_exchange_req : Request :=
  ReqPost Index.token_url "refresh_token" None.

(** What the exchange part of [getZohoAccessToken] of index.js comes to,
    started with cache [c]. *)
Definition index_result (now : Z) (c : Cache) (o : NetOutcome)
  : Cache * Outcome JSVal * list Request :=
  match axios_settle default_validateStatus o with
  | Rejected e => (c, Thrown e, [index_exchange_req])
  | Fulfilled v =>
      match data v with
      | JNull =>
          (c, Thrown (Error "Cannot read properties of null (reading 'access_token')"),
           [index_exchange_req])
      | JUndefined =>
          (c, Thrown (Error "Cannot read properties of undefined (reading 'access_token')"),
           [index_exchange_req])
      | JObj fields =>
          ({| zohoAccessToken := get_field "access_token" fields;
              tokenExpiryTime := Some (now + fifty_five_minutes) |},
           Returned (get_field "access_token" fields), [index_exchange_req])
      | _ =>
          ({| zohoAccessToken := JUndefined;
              tokenExpiryTime := Some (now + fifty_five_minutes) |},
           Returned JUndefined, [index_exchange_req])
      end
  end.

(** The two token caches. *)
Inductive Variant : Type :=
| ServerJs
| IndexJs.

Definition acquire (v : Variant) : Z -> Prog JSVal :=
  match v with
  | ServerJs => Server.getZohoAccessToken
  | IndexJs => Index.getZohoAccessToken
  end.

(** The requests of a run. *)
Definition trace_of {A : Type} (r : Cache * Outcome A * list Request) : list Request :=
  snd r.

(** A handler suspended on a request keeps the invariant [I] when it
    resumes, whatever the answer. *)
Definition task_keeps (I : Cache -> Prop) (t : Susp JSVal) : Prop :=
  match t with
  | Finished _ => True
  | Waiting _ k => forall o c, I c -> inv_prog I (k o) c
  end.

(** A refused response whose body is [null] or [undefined]. *)
Definition body_missing (o : NetOutcome) : bool :=
  match o with
  | Responded s d => negb (default_validateStatus s) && negb (is_set d)
  | NetFail _ => false
  end.

(** A network on which the cached token was revoked and the exchange hands
    out a new one. *)
Definition revoked_then_renewed (r : Request) : NetOutcome :=
  match r with
  | ReqGet _ _ _ => Responded 401 (JObj [("code", JStr "INVALID_TOKEN")])
  | ReqPost _ _ _ => Responded 200 (JObj [("access_token", JStr "1000.new")])
  end.

(** *** Vocabulary of the further properties *)

Fixpoint count_commas (s : string) : nat :=
  match s with
  | EmptyString => O
  | String c rest => if Ascii.eqb c "," then S (count_commas rest) else count_commas rest
  end.

(** [w] is the encoding of one white-space code point. *)
Definition space_char (w : string) : bool :=
  match w with
  | String a EmptyString => is_space a
  | String a (String b EmptyString) => is_space2 a b
  | String a (String b (String c EmptyString)) => is_space3 a b c
  | _ => false
  end.

(** [s] begins with a white-space code point. *)
Definition starts_space (s : string) : bool :=
  match s with
  | EmptyString => false
  | String a s1 =>
      if is_space a then true
      else
        match s1 with
        | EmptyString => false
        | String b s2 =>
            if is_space2 a b then true
            else
              match s2 with
              | EmptyString => false
              | String c _ => is_space3 a b c
              end
        end
  end.

(** A clock reading with a four-digit year. *)
Definition valid_date (d : Date) : Prop :=
  1000 <= getFullYear d <= 9999
  /\ 0 <= getMonth d <= 11
  /\ 1 <= getDate d <= 31
  /\ 0 <= getHours d <= 23
  /\ 0 <= getMinutes d <= 59
  /\ 0 <= getSeconds d <= 59.

(** The number two decimal digits stand for, -1 for any other string. *)
Definition two_digits (s : string) : Z :=
  match s with
  | String a (String b EmptyString) =>
      if (is_digit a && is_digit b)%bool
      then 10 * (Z.of_nat (nat_of_ascii a) - 48) + (Z.of_nat (nat_of_ascii b) - 48)
      else -1
  | _ => -1
  end.

(** The calls at the times [nows] arrive one after the other, each running
    to its first [await], before any answer comes back. *)
Fixpoint start_all (get : Z -> Prog JSVal) (nows : list Z) (s : Sys) : Sys :=
  match nows with
  | [] => s
  | now :: rest =>
      start_all get rest
        {| cache := fst (advance (get now) (cache s));
           tasks := (tasks s ++ [snd (advance (get now) (cache s))])%list |}
  end.

(** The 401 reply of [/api/vendors]. *)
Definition auth_failed (details : string) : Response :=
  {| code := 401;
     body := JObj [("success", JBool false);
                   ("message", JStr "Failed to authenticate with Zoho");
                   ("error",
                    JObj [("code", JStr "AUTH_FAILED");
                          ("details", JStr details);
                          ("message", JStr "Invalid OAuth token or credentials");
                          ("status", JStr "error")])] |}.

(** The 500 reply of [/api/zoho/refresh-token]. *)
Definition refresh_failed (details : string) : Response :=
  {| code := 500;
     body := JObj [("success", JBool false);
                   ("message", JStr "Failed to refresh token");
                   ("error", JStr details)] |}.

(** The number four decimal digits stand for. *)
Definition four_digits (s : string) : Z :=
  100 * two_digits (substring 0 2 s) + two_digits (substring 2 2 s).

(** [p] holds of the [n] integers from [z] on. *)
Fixpoint all_from (n : nat) (z : Z) (p : Z -> bool) : bool :=
  match n with
  | O => true
  | S m => p z && all_from m (z + 1) p
  end.

(** The number a reply carries under [name]. *)
Definition reply_number (name : string) (r : Response) : option Z :=
  match body r with
  | JObj fields =>
      match get_field name fields with
      | JNum n => Some n
      | _ => None
      end
  | _ => None
  end.

(** The cache is empty, or holds a truthy token together with an expiry. *)
Definition sound (c : Cache) : Prop :=
  c = initial
  \/ (truthy (zohoAccessToken c) = true /\ time_set (tokenExpiryTime c) = true).

(** How a call ends in cache [c]: it returns what [zohoAccessToken] holds,
    or throws with the cache empty. *)
Definition ends_as (c : Cache) (res : Outcome JSVal) : Prop :=
  match res with
  | Returned v => v = zohoAccessToken c
  | Thrown _ => c = initial
  end.

(** [ends_prog I Q p c]: like [inv_prog I p c], and [p] ends in a cache and
    with an outcome related by [Q]. *)
Fixpoint ends_prog {A : Type} (I : Cache -> Prop) (Q : Cache -> Outcome A -> Prop)
         (p : Prog A) (c : Cache) : Prop :=
  match p with
  | Ret a => I c /\ Q c (Returned a)
  | Throw e => I c /\ Q c (Thrown e)
  | Read k => ends_prog I Q (k c) c
  | Assign c' k => ends_prog I Q k c'
  | Await _ k => I c /\ forall o c2, I c2 -> ends_prog I Q (k o) c2
  end.

Definition task_ends (I : Cache -> Prop) (Q : Cache -> Outcome JSVal -> Prop)
           (t : Susp JSVal) : Prop :=
  match t with
  | Finished _ => True
  | Waiting _ k => forall o c, I c -> ends_prog I Q (k o) c
  end.

(** What is known when a suspended handler has been resumed: the cache is
    sound, and if the handler ended there it ended as [ends_as] says. *)
Definition resumed_well (t : Susp JSVal) (r : Cache * Susp JSVal) : Prop :=
  sound (fst r)
  /\ match t, snd r with
     | Waiting _ _, Finished res => ends_as (fst r) res
     | _, _ => True
     end.
(* ================================================================= *)
(** * Properties *)

(** ** Coercion helpers *)

Lemma strict_eq_literal (v w : JSVal) :
  In w truthy_literals -> strict_eq v w = true <-> v = w.
Proof.
  intros Hw. split.
  - destruct v, w; simpl; intros H; try discriminate; try reflexivity.
    + apply Bool.eqb_prop in H. congruence.
    + apply Z.eqb_eq in H. congruence.
    + apply String.eqb_eq in H. congruence.
  - intros ->. simpl in Hw.
    repeat (destruct Hw as [<- | Hw]; [reflexivity |]). contradiction.
Qed.

Lemma accepted_iff (v : JSVal) : accepted v = true <-> In v truthy_literals.
Proof.
  unfold accepted. rewrite existsb_exists. split.
  - intros (w & Hw & E). apply strict_eq_literal in E; [subst; exact Hw | exact Hw].
  - intros H. exists v. split; [exact H |]. apply strict_eq_literal; auto.
Qed.

Lemma accepted_unfold (v : JSVal) :
  accepted v =
  strict_eq v (JBool true) || strict_eq v (JStr "true") || strict_eq v (JNum 1)
  || strict_eq v (JStr "1") || strict_eq v (JStr "Yes") || strict_eq v (JStr "yes")
  || strict_eq v (JStr "on").
Proof.
  unfold accepted, truthy_literals. cbn [existsb].
  rewrite orb_false_r. rewrite !orb_assoc. reflexivity.
Qed.

Lemma server_helpers_accepted (v : JSVal) :
  Server.toYesNo v = (if accepted v then "Yes" else "No")
  /\ Server.toBoolean v = accepted v
  /\ Server.toYesNoNumber v = (if accepted v then 1 else 0).
Proof.
  unfold Server.toYesNo, Server.toBoolean, Server.toYesNoNumber.
  rewrite <- accepted_unfold. destruct (accepted v); auto.
Qed.

Lemma index_helpers_accepted (v : JSVal) :
  Index.toYesNo v = (if accepted v then "Yes" else "No")
  /\ Index.toBoolean v = accepted v
  /\ Index.toYesNoNumber v = (if accepted v then 1 else 0).
Proof.
  unfold Index.toYesNo, Index.toBoolean, Index.toYesNoNumber.
  rewrite <- accepted_unfold. destruct (accepted v); auto.
Qed.

(** C10.  In server.js and in index.js alike, the three helpers decide by
    the same set of literals: [toYesNo v] is "Yes" exactly when
    [toBoolean v] is [true], exactly when [toYesNoNumber v] is 1, exactly
    when [v] is one of [true], "true", 1, "1", "Yes", "yes", "on"; on every
    other value they return "No", [false] and 0. *)
Theorem coercion_helpers_agree (v : JSVal) :
  ((Server.toYesNo v = "Yes" <-> Server.toBoolean v = true)
   /\ (Server.toBoolean v = true <-> Server.toYesNoNumber v = 1)
   /\ (Server.toBoolean v = true <-> In v truthy_literals)
   /\ (Server.toBoolean v = true
       \/ Server.toYesNo v = "No" /\ Server.toBoolean v = false
          /\ Server.toYesNoNumber v = 0))
  /\ ((Index.toYesNo v = "Yes" <-> Index.toBoolean v = true)
      /\ (Index.toBoolean v = true <-> Index.toYesNoNumber v = 1)
      /\ (Index.toBoolean v = true <-> In v truthy_literals)
      /\ (Index.toBoolean v = true
          \/ Index.toYesNo v = "No" /\ Index.toBoolean v = false
             /\ Index.toYesNoNumber v = 0)).
Proof.
  destruct (server_helpers_accepted v) as (Sy & Sb & Sn).
  destruct (index_helpers_accepted v) as (Iy & Ib & In_).
  rewrite Sy, Sb, Sn, Iy, Ib, In_. rewrite <- accepted_iff.
  destruct (accepted v); repeat split; intros; auto; try discriminate;
    try (right; repeat split; reflexivity).
Qed.

(** ** Cash Slip token *)

Example generateToken_sample :
  Server.generateToken
    {| getFullYear := 2026; getMonth := 10; getDate := 3;
       getHours := 9; getMinutes := 30; getSeconds := 5 |} = "CS261103093005".
Proof. reflexivity. Qed.

Lemma generateToken_same (now : Date) :
  Index.generateToken now = Server.generateToken now.
Proof. reflexivity. Qed.

(** C9.  In index.js the [Name] of every Cash Slip payload is the token
    computed when the module was loaded, whatever the time of the request;
    in server.js it is the token of the time of the request, so two
    requests can carry different names. *)
Theorem cash_slip_name_fixed_at_load :
  (forall (loaded t1 t2 : Date) (c1 c2 : JSVal),
      Index.Name (Index.sales_create_payload loaded t1 c1)
      = Index.Name (Index.sales_create_payload loaded t2 c2))
  /\ (forall (loaded t : Date) (c : JSVal),
         Index.Name (Index.sales_create_payload loaded t c)
         = Index.generateToken loaded)
  /\ (forall (t : Date) (c : JSVal),
         Server.Name (Server.sales_create_payload t c) = Server.generateToken t)
  /\ (exists (t1 t2 : Date) (c : JSVal),
         Server.Name (Server.sales_create_payload t1 c)
         <> Server.Name (Server.sales_create_payload t2 c)
         /\ forall loaded : Date,
             Index.Name (Index.sales_create_payload loaded t1 c)
             = Index.Name (Index.sales_create_payload loaded t2 c)).
Proof.
  repeat split.
  exists {| getFullYear := 2026; getMonth := 10; getDate := 3;
            getHours := 9; getMinutes := 30; getSeconds := 5 |},
         {| getFullYear := 2026; getMonth := 10; getDate := 3;
            getHours := 9; getMinutes := 30; getSeconds := 6 |},
         JNull.
  split; [discriminate | reflexivity].
Qed.

(** ** Webhook fan-out *)

Section ListFacts.

Context {A B : Type}.

Lemma mapi_from_length (f : nat -> A -> B) (l : list A) :
  forall k, List.length (mapi_from k f l) = List.length l.
Proof. induction l as [| x l IH]; intros k; simpl; [reflexivity | now rewrite IH]. Qed.

Lemma nth_error_mapi_from (f : nat -> A -> B) (l : list A) :
  forall k i, nth_error (mapi_from k f l) i = option_map (f (k + i)%nat) (nth_error l i).
Proof.
  induction l as [| x l IH]; intros k i.
  - destruct i; reflexivity.
  - destruct i as [| i]; simpl.
    + now rewrite Nat.add_0_r.
    + rewrite IH. now rewrite Nat.add_succ_r.
Qed.

Lemma nth_error_update_nth (x : A) (l : list A) :
  forall i j,
    nth_error (update_nth i x l) j
    = if (Nat.eqb i j && Nat.ltb i (List.length l))%bool then Some x else nth_error l j.
Proof.
  induction l as [| y l IH]; intros i j.
  - destruct i; simpl; rewrite ?andb_false_r; reflexivity.
  - destruct i as [| i], j as [| j]; simpl; try reflexivity.
    rewrite IH. reflexivity.
Qed.

Lemma update_nth_length (x : A) (l : list A) :
  forall i, List.length (update_nth i x l) = List.length l.
Proof.
  induction l as [| y l IH]; intros [| i]; simpl; try reflexivity.
  now rewrite IH.
Qed.

Lemma update_nth_middle (x y : A) (l1 l2 : list A) :
  update_nth (List.length l1) x (l1 ++ y :: l2)%list = (l1 ++ x :: l2)%list.
Proof. induction l1 as [| z l1 IH]; simpl; [reflexivity | now rewrite IH]. Qed.

End ListFacts.

Lemma count_if_cons {A : Type} (f : A -> bool) (x : A) (l : list A) :
  count_if f (x :: l) = (if f x then 1 else 0) + count_if f l.
Proof.
  unfold count_if. cbn [filter]. destruct (f x); cbn [List.length]; lia.
Qed.

Lemma count_if_nil {A : Type} (f : A -> bool) : count_if f [] = 0.
Proof. reflexivity. Qed.

Lemma count_split (l : list Settled) :
  count_if delivered l + count_if failed l = Z.of_nat (List.length l).
Proof.
  induction l as [| r l IH]; [reflexivity |].
  rewrite !count_if_cons. cbn [List.length]. rewrite Nat2Z.inj_succ.
  change (failed r) with (negb (delivered r)).
  destruct (delivered r); cbn [negb]; lia.
Qed.

Lemma forEach_count_from (l : list Settled) :
  forall k acc,
    forEach_from k count_result l acc
    = (fst acc + count_if delivered l, snd acc + count_if failed l).
Proof.
  induction l as [| r l IH]; intros k [s f]; cbn [forEach_from].
  - rewrite !count_if_nil. cbn [fst snd]. f_equal; lia.
  - rewrite IH, !count_if_cons. unfold count_result.
    change (failed r) with (negb (delivered r)).
    destruct (delivered r); cbn [fst snd negb]; f_equal; lia.
Qed.

Lemma forEach_count (l : list Settled) :
  forEach count_result l (0, 0) = (count_if delivered l, count_if failed l).
Proof. unfold forEach. rewrite forEach_count_from. reflexivity. Qed.

Lemma vendor_record_detail (urls : list string) (acc : Server.WebhookResults)
      (r : Settled) (i : nat) :
  Server.vendor_record urls acc r i
  = {| Server.successCount := Server.successCount acc + (if delivered r then 1 else 0);
       Server.failureCount := Server.failureCount acc + (if delivered r then 0 else 1);
       Server.details := (Server.details acc ++ [detail_of urls i r])%list |}.
Proof.
  unfold Server.vendor_record, detail_of.
  destruct r as [v | e]; simpl; [destruct (status v <? 400) |];
    f_equal; lia.
Qed.

Lemma forEach_vendor_from (urls : list string) (l : list Settled) :
  forall k acc,
    forEach_from k (Server.vendor_record urls) l acc
    = {| Server.successCount := Server.successCount acc + count_if delivered l;
         Server.failureCount := Server.failureCount acc + count_if failed l;
         Server.details := (Server.details acc ++ mapi_from k (detail_of urls) l)%list |}.
Proof.
  induction l as [| r l IH]; intros k acc; cbn [forEach_from mapi_from].
  - rewrite !count_if_nil, app_nil_r. destruct acc; cbn. f_equal; lia.
  - rewrite IH, vendor_record_detail, !count_if_cons. cbn.
    rewrite <- app_assoc. change (failed r) with (negb (delivered r)).
    destruct (delivered r); cbn [negb app]; f_equal; lia.
Qed.

Lemma delivered_settle (o : NetOutcome) :
  delivered (axios_settle webhook_validateStatus o)
  = match o with
    | Responded s _ => (200 <=? s) && (s <? 400)
    | NetFail _ => false
    end.
Proof.
  destruct o as [s d | m]; simpl; [| reflexivity].
  unfold webhook_validateStatus.
  destruct (200 <=? s) eqn:L, (s <? 500) eqn:H, (s <? 400) eqn:H4; simpl;
    try reflexivity; try rewrite H4; try reflexivity; lia.
Qed.

Lemma fulfilled_settle (o : NetOutcome) :
  ServerV1.fulfilled (axios_settle default_validateStatus o)
  = match o with
    | Responded s _ => (200 <=? s) && (s <? 300)
    | NetFail _ => false
    end.
Proof.
  destruct o as [s d | m]; simpl; [| reflexivity].
  unfold default_validateStatus. destruct ((200 <=? s) && (s <? 300)); reflexivity.
Qed.

Lemma webhook_urls_empty (env : option string) :
  webhook_urls env = [] <-> env = None \/ env = Some "".
Proof.
  destruct env as [s |]; simpl.
  - destruct (String.eqb_spec s "") as [-> | N].
    + split; auto.
    + split.
      * intros H. exfalso. destruct s as [| c s]; [congruence |].
        simpl in H. destruct (Ascii.eqb c ","); [discriminate |].
        destruct (split_comma s); discriminate.
      * intros [H | H]; congruence.
  - split; auto.
Qed.

Lemma vendor_webhooks_details (env : option string) (net : Net) :
  Server.details (Server.vendor_webhooks env net)
  = mapi (detail_of (webhook_urls env))
         (settle_all webhook_validateStatus net (webhook_urls env)).
Proof.
  unfold Server.vendor_webhooks.
  destruct (webhook_urls env) as [| u us] eqn:E; [reflexivity |].
  cbn [List.length Nat.ltb Nat.leb]. unfold forEach.
  rewrite forEach_vendor_from. reflexivity.
Qed.

(** A 404 answer to [/api/vendors] of server.js: the request is fulfilled,
    and the entry pushed for it is a "failed" one with the fallback
    message. *)
Example vendor_detail_404 :
  Server.vendor_webhooks (Some "http://a.example") (fun _ _ => Responded 404 JNull)
  = {| Server.successCount := 0; Server.failureCount := 1;
       Server.details :=
         [{| Server.url := JStr "http://a.example"; Server.outcome := "failed";
             Server.statusCode := None; Server.error := Some "Unknown error" |}] |}.
Proof. reflexivity. Qed.

(** C2, as stated, fails.  The upload server calls axios without
    [validateStatus]: a target answering 304 is not counted in
    [webhookSuccess] although 304 < 400.  With [validateStatus] the request
    of a target answering 199 is rejected and counted as failed. *)
Lemma status_below_400_not_counted :
  (304 < 400
   /\ ServerV1.claims_webhooks (Some "http://a.example") true
        (fun _ _ => Responded 304 JNull)
      = {| code := 200;
           body := JObj [("success", JBool true);
                         ("message", JStr "Claim and file processed");
                         ("fileSaved", JBool true);
                         ("webhookSuccess", JNum 0)] |})
  /\ (199 < 400
      /\ Server.claims_webhooks (Some "http://a.example")
           (fun _ _ => Responded 199 JNull)
         = {| code := 200;
              body := JObj [("success", JBool true);
                            ("message", JStr "Claim processed");
                            ("webhookSuccess", JNum 0);
                            ("webhookFailed", JNum 1)] |}).
Proof. repeat split; reflexivity. Qed.

(** C2, amended.  In the handlers that pass [validateStatus]
    ([/api/claims] and [/api/vendors] of the full server.js and of
    index.js) a target counts as a success exactly when it answers with a
    status in [200,400); an answer in [400,500) fulfils the request and is
    counted as a failure, a 500 answer is counted as a failure, and the
    reply carries both counters (for [/api/vendors] of server.js, one detail
    entry per target).  In the upload server, which passes no
    [validateStatus], a target is counted in [webhookSuccess] exactly when it
    answers with a status in [200,300), and nothing else is counted. *)
Theorem fanout_acceptance_by_variant
        (env : option string) (fileSaved : bool) (net : Net) (o : NetOutcome) :
  let urls := webhook_urls env in
  let results := settle_all webhook_validateStatus net urls in
  (delivered (axios_settle webhook_validateStatus o) = true
   <-> exists s d, o = Responded s d /\ 200 <= s < 400)
  /\ (forall s d, o = Responded s d -> 400 <= s < 500 ->
        axios_settle webhook_validateStatus o = Fulfilled {| status := s; data := d |}
        /\ failed (axios_settle webhook_validateStatus o) = true)
  /\ (forall d, o = Responded 500 d ->
        failed (axios_settle webhook_validateStatus o) = true)
  /\ (urls <> [] ->
      Server.claims_webhooks env net
      = {| code := 200;
           body := JObj [("success", JBool true);
                         ("message", JStr "Claim processed");
                         ("webhookSuccess", JNum (count_if delivered results));
                         ("webhookFailed", JNum (count_if failed results))] |}
      /\ Index.claims_webhooks env net = Server.claims_webhooks env net
      /\ Index.vendor_webhooks env net
         = {| code := 200;
              body := JObj [("success", JBool true);
                            ("message", JStr "Vendor processed successfully");
                            ("webhookSuccess", JNum (count_if delivered results));
                            ("webhookFailed", JNum (count_if failed results))] |})
  /\ Server.vendor_webhooks env net
     = {| Server.successCount := count_if delivered results;
          Server.failureCount := count_if failed results;
          Server.details := mapi (detail_of urls) results |}
  /\ (ServerV1.fulfilled (axios_settle default_validateStatus o) = true
      <-> exists s d, o = Responded s d /\ 200 <= s < 300)
  /\ ServerV1.claims_webhooks env fileSaved net
     = {| code := 200;
          body := JObj [("success", JBool true);
                        ("message", JStr "Claim and file processed");
                        ("fileSaved", JBool fileSaved);
                        ("webhookSuccess",
                         JNum (count_if ServerV1.fulfilled
                                 (settle_all default_validateStatus net urls)))] |}.
Proof.
  intros urls results.
  refine (conj _ (conj _ (conj _ (conj _ (conj _ (conj _ _)))))).
  - rewrite delivered_settle. destruct o as [s d | m].
    + split.
      * intros H. exists s, d. split; [reflexivity | lia].
      * intros (s' & d' & E & R). injection E as -> ->. lia.
    + split; [discriminate | intros (s & d & E & _); discriminate].
  - intros s d -> R. unfold failed. rewrite delivered_settle.
    split; [| destruct (200 <=? s) eqn:?, (s <? 400) eqn:?; simpl; try reflexivity; lia].
    simpl. unfold webhook_validateStatus.
    destruct (200 <=? s) eqn:?, (s <? 500) eqn:?; simpl; try reflexivity; lia.
  - intros d ->. reflexivity.
  - intros Hne. subst results.
    unfold Index.claims_webhooks, Index.claims_report, Index.vendor_webhooks,
      Index.vendor_report, Server.claims_webhooks, Server.claims_report.
    fold urls. destruct urls as [| u us]; [congruence |].
    cbn [List.length Nat.eqb]. rewrite forEach_count. repeat split.
  - unfold Server.vendor_webhooks. fold urls. subst results.
    destruct urls as [| u us]; [reflexivity |].
    cbn [List.length Nat.ltb Nat.leb]. unfold forEach.
    rewrite forEach_vendor_from. reflexivity.
  - rewrite fulfilled_settle. destruct o as [s d | m].
    + split.
      * intros H. exists s, d. split; [reflexivity | lia].
      * intros (s' & d' & E & R). injection E as -> ->. lia.
    + split; [discriminate | intros (s & d & E & _); discriminate].
  - reflexivity.
Qed.

Lemma fanout_acceptance_by_variant_witness :
  (400 <= 404 < 500
   /\ axios_settle webhook_validateStatus (Responded 404 JNull)
      = Fulfilled {| status := 404; data := JNull |}
   /\ failed (axios_settle webhook_validateStatus (Responded 404 JNull)) = true)
  /\ (webhook_urls (Some "http://a.example,http://b.example") <> []
      /\ Index.claims_webhooks (Some "http://a.example,http://b.example")
           (fun i _ => match i with O => Responded 200 JNull | _ => Responded 404 JNull end)
         = Server.claims_webhooks (Some "http://a.example,http://b.example")
             (fun i _ => match i with O => Responded 200 JNull | _ => Responded 404 JNull end)).
Proof.
  split.
  - split; [lia |].
    apply (proj1 (proj2 (fanout_acceptance_by_variant
                           None false (fun _ _ => NetFail "") (Responded 404 JNull)))
                 404 JNull); [reflexivity | lia].
  - split; [discriminate |].
    apply (proj1 (proj2 (proj2 (proj2 (fanout_acceptance_by_variant
             (Some "http://a.example,http://b.example") false
             (fun i _ => match i with O => Responded 200 JNull | _ => Responded 404 JNull end)
             (NetFail "")))))).
    discriminate.
Defined.

(** *** Completion of the fan-out *)

Lemma allSettled_pending (fl : Flight) : In None fl -> allSettled fl = None.
Proof.
  induction fl as [| [r |] fl IH]; simpl; intros H.
  - contradiction.
  - destruct H as [H | H]; [discriminate |]. now rewrite IH.
  - reflexivity.
Qed.

Lemma allSettled_all (rs : list Settled) : allSettled (map Some rs) = Some rs.
Proof. induction rs as [| r rs IH]; simpl; [reflexivity | now rewrite IH]. Qed.

Lemma allSettled_inv (fl : Flight) :
  forall rs, allSettled fl = Some rs -> fl = map Some rs.
Proof.
  induction fl as [| [r |] fl IH]; simpl; intros rs H.
  - injection H as <-. reflexivity.
  - destruct (allSettled fl) as [rs' |]; [| discriminate].
    injection H as <-. simpl. now rewrite (IH rs').
  - discriminate.
Qed.

Lemma schedule_partial (answers : nat -> Settled) (n : nat) (fl : Flight) :
  schedule answers (launch n) fl -> partial answers n fl.
Proof.
  intros H. remember (launch n) as fl0 eqn:E.
  induction H as [fl | fl fl' fl'' _ IH Hs]; subst.
  - split.
    + apply repeat_length.
    + intros i r Hi. exfalso.
      assert (In (Some r) (launch n)) as Hin by (eapply nth_error_In; eauto).
      apply repeat_spec in Hin. discriminate.
  - destruct (IH eq_refl) as [Hlen Hval]. destruct Hs as [i fl' Hp].
    split.
    + now rewrite update_nth_length.
    + intros j r. rewrite nth_error_update_nth.
      destruct (Nat.eqb_spec i j) as [-> | N]; simpl.
      * destruct (Nat.ltb j (List.length fl')); [congruence | apply Hval].
      * apply Hval.
Qed.

Lemma schedule_in_order (answers : nat -> Settled) (n : nat) :
  forall k, (k <= n)%nat ->
    schedule answers (launch n)
             (map (fun i => Some (answers i)) (seq 0 k) ++ repeat None (n - k))%list.
Proof.
  induction k as [| k IH]; intros Hk.
  - simpl. rewrite Nat.sub_0_r. apply schedule_nil.
  - assert (Hlen : List.length (map (fun i => Some (answers i)) (seq 0 k)) = k)
      by (now rewrite length_map, length_seq).
    eapply schedule_cons; [apply IH; lia |].
    replace (n - k)%nat with (S (n - S k)) by lia. cbn [repeat].
    rewrite seq_S, map_app, <- app_assoc. cbn [map app Nat.add].
    rewrite <- (update_nth_middle (Some (answers k)) None).
    rewrite Hlen. apply settles_at.
    rewrite nth_error_app2 by lia. rewrite Hlen, Nat.sub_diag. reflexivity.
Qed.

Lemma mapi_from_seq {A B : Type} (f : nat -> A -> B) (d : A) (l : list A) :
  forall k,
    mapi_from k f l = map (fun i => f i (nth (i - k) l d)) (seq k (List.length l)).
Proof.
  induction l as [| x l IH]; intros k; [reflexivity |].
  cbn [mapi_from List.length seq map]. rewrite Nat.sub_diag. cbn [nth].
  f_equal. rewrite IH. apply map_ext_in. intros i Hi. apply in_seq in Hi.
  replace (i - k)%nat with (S (i - S k)) by lia. reflexivity.
Qed.

Lemma settle_all_seq (v : Z -> bool) (net : Net) (urls : list string) :
  settle_all v net urls
  = map (fun i => axios_settle v (net i (nth i urls ""))) (seq 0 (List.length urls)).
Proof.
  unfold settle_all, mapi. rewrite (mapi_from_seq _ "").
  apply map_ext. intros i. now rewrite Nat.sub_0_r.
Qed.

Lemma partial_all (answers : nat -> Settled) (n : nat) (rs : list Settled) :
  partial answers n (map Some rs) -> rs = map answers (seq 0 n).
Proof.
  intros [Hlen Hval]. rewrite length_map in Hlen.
  apply nth_error_ext. intros i.
  rewrite nth_error_map, nth_error_seq.
  destruct (Nat.ltb_spec i n) as [L | L]; simpl.
  - destruct (nth_error rs i) as [r |] eqn:E.
    + f_equal. apply Hval. rewrite nth_error_map, E. reflexivity.
    + apply nth_error_None in E. lia.
  - apply nth_error_None. lia.
Qed.

Lemma settled_all (fl : Flight) : ~ In None fl -> exists rs, fl = map Some rs.
Proof.
  induction fl as [| [r |] fl IH]; intros H.
  - now exists [].
  - destruct IH as (rs & ->); [intros Hin; apply H; now right |].
    now exists (r :: rs).
  - exfalso. apply H. now left.
Qed.

(** Along every order in which the requests may settle, [allSettled] is
    unresolved while one is in flight and resolves to the results in list
    order once none is. *)
Lemma flight_resolves (v : Z -> bool) (net : Net) (urls : list string) (fl : Flight) :
  schedule (fun i => axios_settle v (net i (nth i urls ""))) (launch (List.length urls)) fl ->
  (In None fl -> allSettled fl = None)
  /\ (~ In None fl -> allSettled fl = Some (settle_all v net urls)).
Proof.
  intros Hs. split; [apply allSettled_pending |].
  intros H. destruct (settled_all fl H) as (rs & ->).
  rewrite allSettled_all. f_equal. rewrite settle_all_seq.
  apply partial_all. now apply schedule_partial.
Qed.

Lemma count_if_bounds {A : Type} (f : A -> bool) (l : list A) : 0 <= count_if f l.
Proof. unfold count_if. lia. Qed.

Lemma count_if_differ_at {A : Type} (f : A -> bool) (l : list A) :
  forall (l' : list A) (j : nat),
    List.length l = List.length l' ->
    (forall i, i <> j -> nth_error l i = nth_error l' i) ->
    -1 <= count_if f l' - count_if f l <= 1.
Proof.
  induction l as [| x l IH]; intros [| x' l'] j L H; try discriminate.
  - rewrite !count_if_nil. lia.
  - cbn [List.length] in L. injection L as L. rewrite !count_if_cons.
    destruct j as [| j].
    + assert (E : l = l').
      { apply nth_error_ext. intros i. apply (H (S i)). discriminate. }
      subst l'. destruct (f x), (f x'); lia.
    + assert (E : x = x') by (specialize (H O ltac:(discriminate)); cbn in H; congruence).
      subst x'.
      assert (-1 <= count_if f l' - count_if f l <= 1).
      { apply (IH l' j L). intros i N. apply (H (S i)). congruence. }
      destruct (f x); lia.
Qed.

Lemma settle_all_isolated (v : Z -> bool) (net net' : Net) (urls : list string) (j : nat) :
  (forall i u, i <> j -> net' i u = net i u) ->
  forall i, i <> j ->
            nth_error (settle_all v net urls) i = nth_error (settle_all v net' urls) i.
Proof.
  intros H i N. unfold settle_all, mapi. rewrite !nth_error_mapi_from. cbn [Nat.add].
  destruct (nth_error urls i); cbn [option_map]; [now rewrite (H i s N) | reflexivity].
Qed.

Lemma claims_webhooks_nonempty (env : option string) (net : Net) :
  webhook_urls env <> [] ->
  Server.claims_webhooks env net
  = Server.claims_report (settle_all webhook_validateStatus net (webhook_urls env))
  /\ Index.claims_webhooks env net
     = Index.claims_report (settle_all webhook_validateStatus net (webhook_urls env))
  /\ Server.vendor_webhooks env net
     = forEach (Server.vendor_record (webhook_urls env))
               (settle_all webhook_validateStatus net (webhook_urls env))
               {| Server.successCount := 0; Server.failureCount := 0;
                  Server.details := [] |}.
Proof.
  intros N. unfold Server.claims_webhooks, Index.claims_webhooks, Server.vendor_webhooks.
  destruct (webhook_urls env) as [| u us]; [congruence |]. repeat split.
Qed.

Lemma vendor_webhooks_fold (env : option string) (net : Net) :
  Server.vendor_webhooks env net
  = {| Server.successCount :=
         count_if delivered (settle_all webhook_validateStatus net (webhook_urls env));
       Server.failureCount :=
         count_if failed (settle_all webhook_validateStatus net (webhook_urls env));
       Server.details :=
         mapi (detail_of (webhook_urls env))
              (settle_all webhook_validateStatus net (webhook_urls env)) |}.
Proof.
  unfold Server.vendor_webhooks.
  destruct (webhook_urls env) as [| u us]; [reflexivity |].
  cbn [List.length Nat.ltb Nat.leb]. unfold forEach.
  rewrite forEach_vendor_from. reflexivity.
Qed.

Lemma vendor_resume_resolves (env : option string) (net : Net) (fl : Flight) :
  schedule (fun i => axios_settle webhook_validateStatus
                       (net i (nth i (webhook_urls env) "")))
           (launch (List.length (webhook_urls env))) fl ->
  (In None fl -> Server.vendor_resume env fl = None)
  /\ (~ In None fl -> Server.vendor_resume env fl = Some (Server.vendor_webhooks env net)).
Proof.
  intros Hs. destruct (flight_resolves _ net _ fl Hs) as [Hp Hd].
  apply schedule_partial in Hs. destruct Hs as [Hlen _].
  unfold Server.vendor_resume, Server.vendor_webhooks.
  destruct (webhook_urls env) as [| u us].
  - destruct fl; [| discriminate]. split; [intros [] | reflexivity].
  - cbn [List.length Nat.ltb Nat.leb]. split; intros H.
    + now rewrite (Hp H).
    + now rewrite (Hd H).
Qed.

(** C3.  In the fan-out of [POST /api/vendors] of server.js and, when a
    URL is configured, in [POST /api/claims] of server.js and of index.js,
    every request is started before the handler awaits; whatever the order
    in which the requests settle, the handler stays suspended while one of
    them is in flight and resumes, with the reply computed from the results
    of all targets, once none is; the requests do all settle.  The counters
    of the reply are not negative and add up to the number of targets, and
    the detail list has one entry per target.  What happens to one target
    leaves the detail entry of every other target as it is and moves the
    success counter by at most one. *)
Theorem fanout_completes_with_every_target (env : option string) (net : Net) :
  let urls := webhook_urls env in
  let n := List.length urls in
  let answers := fun i => axios_settle webhook_validateStatus (net i (nth i urls "")) in
  (exists fl, schedule answers (launch n) fl /\ ~ In None fl)
  /\ ((forall fl,
          schedule answers (launch n) fl ->
          (In None fl -> Server.vendor_resume env fl = None)
          /\ (~ In None fl ->
              Server.vendor_resume env fl = Some (Server.vendor_webhooks env net)))
      /\ (0 <= Server.successCount (Server.vendor_webhooks env net)
          /\ 0 <= Server.failureCount (Server.vendor_webhooks env net)
          /\ Server.successCount (Server.vendor_webhooks env net)
             + Server.failureCount (Server.vendor_webhooks env net) = Z.of_nat n
          /\ List.length (Server.details (Server.vendor_webhooks env net)) = n)
      /\ (forall (net' : Net) (j : nat),
             (forall i u, i <> j -> net' i u = net i u) ->
             (forall i, i <> j ->
                        nth_error (Server.details (Server.vendor_webhooks env net')) i
                        = nth_error (Server.details (Server.vendor_webhooks env net)) i)
             /\ -1 <= Server.successCount (Server.vendor_webhooks env net')
                      - Server.successCount (Server.vendor_webhooks env net) <= 1))
  /\ (urls <> [] ->
      (Server.claims_launch env = inr (launch n)
       /\ Index.claims_launch env = inr (launch n))
      /\ (forall fl,
             schedule answers (launch n) fl ->
             (In None fl ->
              Server.claims_resume fl = None /\ Index.claims_resume fl = None)
             /\ (~ In None fl ->
                 Server.claims_resume fl = Some (Server.claims_webhooks env net)
                 /\ Index.claims_resume fl = Some (Index.claims_webhooks env net)))
      /\ (exists s f,
             reply_number "webhookSuccess" (Server.claims_webhooks env net) = Some s
             /\ reply_number "webhookFailed" (Server.claims_webhooks env net) = Some f
             /\ reply_number "webhookSuccess" (Index.claims_webhooks env net) = Some s
             /\ reply_number "webhookFailed" (Index.claims_webhooks env net) = Some f
             /\ 0 <= s /\ 0 <= f /\ s + f = Z.of_nat n)
      /\ (forall (net' : Net) (j : nat),
             (forall i u, i <> j -> net' i u = net i u) ->
             exists s s',
               reply_number "webhookSuccess" (Server.claims_webhooks env net) = Some s
               /\ reply_number "webhookSuccess" (Server.claims_webhooks env net')
                  = Some s'
               /\ reply_number "webhookSuccess" (Index.claims_webhooks env net')
                  = Some s'
               /\ -1 <= s' - s <= 1)).
Proof.
  intros urls n answers.
  assert (Hlen : forall nt, List.length (settle_all webhook_validateStatus nt urls) = n)
    by (intros nt; unfold settle_all, mapi; apply mapi_from_length).
  assert (Hdiff : forall net' j,
             (forall i u, i <> j -> net' i u = net i u) ->
             -1 <= count_if delivered (settle_all webhook_validateStatus net' urls)
                   - count_if delivered (settle_all webhook_validateStatus net urls)
             <= 1).
  { intros net' j Hj. apply (count_if_differ_at delivered _ _ j).
    - now rewrite !Hlen.
    - intros i N. apply (settle_all_isolated _ net net' urls j Hj i N). }
  refine (conj _ (conj (conj _ (conj _ _)) _)).
  - exists (map Some (settle_all webhook_validateStatus net urls)). split.
    + rewrite settle_all_seq, map_map.
      pose proof (schedule_in_order answers n n (Nat.le_refl _)) as H.
      rewrite Nat.sub_diag in H. cbn [repeat] in H. now rewrite app_nil_r in H.
    + rewrite in_map_iff. intros (r & E & _). discriminate.
  - intros fl Hs. now apply vendor_resume_resolves.
  - rewrite vendor_webhooks_fold. fold urls. cbn.
    pose proof (count_if_bounds delivered (settle_all webhook_validateStatus net urls)).
    pose proof (count_if_bounds failed (settle_all webhook_validateStatus net urls)).
    unfold mapi. rewrite count_split, mapi_from_length, Hlen. repeat split; auto.
  - intros net' j Hj. split.
    + intros i N. rewrite !vendor_webhooks_details. fold urls.
      unfold mapi. rewrite !nth_error_mapi_from.
      now rewrite (settle_all_isolated _ net net' urls j Hj i N).
    + rewrite !vendor_webhooks_fold. fold urls. cbn. now apply (Hdiff net' j).
  - intros Hne.
    destruct (claims_webhooks_nonempty env net Hne) as (ES & EI & _).
    fold urls in ES, EI.
    refine (conj _ (conj _ (conj _ _))).
    + unfold Server.claims_launch, Index.claims_launch. fold urls. subst n.
      destruct urls; [congruence | split; reflexivity].
    + intros fl Hs. destruct (flight_resolves _ net urls fl Hs) as [Hp Hd].
      unfold Server.claims_resume, Index.claims_resume. split; intros H.
      * rewrite (Hp H). split; reflexivity.
      * rewrite (Hd H), ES, EI. split; reflexivity.
    + exists (count_if delivered (settle_all webhook_validateStatus net urls)),
             (count_if failed (settle_all webhook_validateStatus net urls)).
      rewrite ES, EI. unfold Server.claims_report, Index.claims_report.
      rewrite forEach_count. cbn.
      repeat split; try apply count_if_bounds. rewrite count_split. now rewrite Hlen.
    + intros net' j Hj.
      destruct (claims_webhooks_nonempty env net' Hne) as (ES' & EI' & _).
      fold urls in ES', EI'.
      exists (count_if delivered (settle_all webhook_validateStatus net urls)),
             (count_if delivered (settle_all webhook_validateStatus net' urls)).
      rewrite ES, ES', EI'. unfold Server.claims_report, Index.claims_report.
      rewrite !forEach_count. cbn.
      pose proof (Hdiff net' j Hj). repeat split; lia.
Qed.

Lemma fanout_completes_with_every_target_witness :
  webhook_urls (Some "http://a.example,http://b.example,http://c.example") <> []
  /\ exists s f,
       reply_number "webhookSuccess"
         (Server.claims_webhooks
            (Some "http://a.example,http://b.example,http://c.example")
            (fun i _ => match i with
                        | 1%nat => NetFail "timeout of 15000ms exceeded"
                        | _ => Responded 200 JNull
                        end)) = Some s
       /\ reply_number "webhookFailed"
            (Server.claims_webhooks
               (Some "http://a.example,http://b.example,http://c.example")
               (fun i _ => match i with
                           | 1%nat => NetFail "timeout of 15000ms exceeded"
                           | _ => Responded 200 JNull
                           end)) = Some f
       /\ s + f = 3.
Proof.
  split; [discriminate |].
  destruct (proj2 (proj2 (fanout_completes_with_every_target
              (Some "http://a.example,http://b.example,http://c.example")
              (fun i _ => match i with
                          | 1%nat => NetFail "timeout of 15000ms exceeded"
                          | _ => Responded 200 JNull
                          end)))
              ltac:(discriminate))
    as (_ & _ & (s & f & Hs & Hf & _ & _ & _ & _ & Hsum) & _).
  exists s, f. split; [exact Hs |]. split; [exact Hf | exact Hsum].
Defined.

(** Three targets, the second of which times out, on [/api/vendors] of
    server.js. *)
Example vendor_three_targets :
  Server.vendor_webhooks (Some "http://a.example, http://b.example ,http://c.example")
    (fun i _ => match i with 1%nat => NetFail "timeout of 15000ms exceeded"
                        | _ => Responded 200 JNull end)
  = {| Server.successCount := 2; Server.failureCount := 1;
       Server.details :=
         [{| Server.url := JStr "http://a.example"; Server.outcome := "success";
             Server.statusCode := Some 200; Server.error := None |};
          {| Server.url := JStr "http://b.example"; Server.outcome := "failed";
             Server.statusCode := None;
             Server.error := Some "timeout of 15000ms exceeded" |};
          {| Server.url := JStr "http://c.example"; Server.outcome := "success";
             Server.statusCode := Some 200; Server.error := None |}] |}.
Proof. reflexivity. Qed.

(** *** Empty list of destinations *)

(** C8, as stated, fails: with no destination configured, [/api/claims] of
    the full server.js refuses with a configuration error while
    [/api/vendors] of the same file returns a zero report. *)
Lemma empty_list_policy_differs :
  configuration_error (dispatch Server_claims None false (fun _ _ => NetFail ""))
  = true
  /\ configuration_error (dispatch Server_vendors None false (fun _ _ => NetFail ""))
     = false.
Proof. split; reflexivity. Qed.

(** C8, amended.  With an empty list of destinations every call site either
    refuses with a configuration error or reports zero deliveries, and the
    choice is fixed per call site, not across them: [/api/claims] of the
    full server.js and of index.js reply 500 "No webhook URLs configured",
    [/api/vendors] of index.js replies 500 "No vendor webhook URLs
    configured", [/api/vendors] of server.js returns successCount 0,
    failureCount 0 and no details, and [/api/claims] of the upload server
    replies 200 with webhookSuccess 0. *)
Theorem empty_list_policy_per_call_site
        (env : option string) (fileSaved : bool) (net : Net) :
  webhook_urls env = [] ->
  dispatch Server_claims env fileSaved net
  = Replied {| code := 500;
               body := JObj [("success", JBool false);
                             ("message", JStr "No webhook URLs configured")] |}
  /\ dispatch Index_claims env fileSaved net
     = dispatch Server_claims env fileSaved net
  /\ dispatch Index_vendors env fileSaved net
     = Replied {| code := 500;
                  body := JObj [("success", JBool false);
                                ("message", JStr "No vendor webhook URLs configured")] |}
  /\ dispatch Server_vendors env fileSaved net
     = Results {| Server.successCount := 0; Server.failureCount := 0;
                  Server.details := [] |}
  /\ dispatch ServerV1_claims env fileSaved net
     = Replied {| code := 200;
                  body := JObj [("success", JBool true);
                                ("message", JStr "Claim and file processed");
                                ("fileSaved", JBool fileSaved);
                                ("webhookSuccess", JNum 0)] |}.
Proof.
  intros E.
  unfold dispatch, Server.claims_webhooks, Index.claims_webhooks,
    Index.vendor_webhooks, Server.vendor_webhooks, ServerV1.claims_webhooks.
  rewrite E. repeat split.
Qed.

Lemma empty_list_policy_per_call_site_witness :
  webhook_urls (Some "") = []
  /\ dispatch Server_vendors (Some "") true (fun _ _ => Responded 200 JNull)
     = Results {| Server.successCount := 0; Server.failureCount := 0;
                  Server.details := [] |}.
Proof.
  split; [reflexivity |].
  apply (proj1 (proj2 (proj2 (proj2 (empty_list_policy_per_call_site
           (Some "") true (fun _ _ => Responded 200 JNull) eq_refl))))).
Defined.

(** ** Token cache *)

(** *** What one call comes to *)

Lemma run_validate (net : Request -> NetOutcome) (token : JSVal) (c : Cache) :
  run net (Server.validateZohoToken token) c
  = (c, Returned (probe_passes (net (probe_req token))), [probe_req token]).
Proof.
  unfold Server.validateZohoToken, probe_req. cbn.
  destruct (net _) as [s d | m]; cbn; [| reflexivity].
  destruct (Z.eqb_spec s 200) as [-> | N]; [reflexivity |].
  destruct (default_validateStatus s); cbn; [| reflexivity].
  destruct (Z.eqb_spec s 200); [contradiction | reflexivity].
Qed.

Lemma run_bind {A B : Type} (net : Request -> NetOutcome) (p : Prog A) (f : A -> Prog B) :
  forall c,
    run net (bind p f) c
    = match run net p c with
      | (c1, Returned a, tr) =>
          let '(c2, r, tr2) := run net (f a) c1 in (c2, r, (tr ++ tr2)%list)
      | (c1, Thrown e, tr) => (c1, Thrown e, tr)
      end.
Proof.
  induction p as [a | e | k IH | c' k IH | r k IH]; intros c; cbn.
  - destruct (run net (f a) c) as [[c2 res] tr2]. reflexivity.
  - reflexivity.
  - apply IH.
  - apply IH.
  - rewrite IH. destruct (run net (k (net r)) c) as [[c1 [a | e]] tr]; cbn;
      [destruct (run net (f a) c1) as [[c2 res] tr2] |]; reflexivity.
Qed.

Lemma run_server_refresh (net : Request -> NetOutcome) (now : Z) (c : Cache) :
  run net (Server.getZohoAccessToken_refresh now) c
  = refresh_result now (net exchange_req).
Proof.
  unfold Server.getZohoAccessToken_refresh, refresh_result, exchanged, refresh_error,
    upstream_message, exchange_req.
  cbn. destruct (net _) as [s d | m]; cbn; [| reflexivity].
  destruct (default_validateStatus s); cbn.
  - destruct d; cbn; try reflexivity.
    destruct (truthy (get_field "access_token" fields)); reflexivity.
  - destruct d; reflexivity.
Qed.

Lemma run_server_get (net : Request -> NetOutcome) (now : Z) (c : Cache) :
  run net (Server.getZohoAccessToken now) c
  = if cached_at now c then
      if probe_passes (net (probe_req (zohoAccessToken c))) then
        (c, Returned (zohoAccessToken c), [probe_req (zohoAccessToken c)])
      else
        let '(c', r, tr) := refresh_result now (net exchange_req) in
        (c', r, probe_req (zohoAccessToken c) :: tr)
    else refresh_result now (net exchange_req).
Proof.
  unfold Server.getZohoAccessToken. cbn [bind run]. fold (cached_at now c).
  destruct (cached_at now c).
  - rewrite run_bind, run_validate.
    destruct (probe_passes _).
    + reflexivity.
    + cbn [bind set_token set_expiry run]. rewrite run_server_refresh.
      destruct (refresh_result _ _) as [[c' r] tr]. reflexivity.
  - apply run_server_refresh.
Qed.

Lemma run_index_get (net : Request -> NetOutcome) (now : Z) (c : Cache) :
  run net (Index.getZohoAccessToken now) c
  = if cached_at now c then (c, Returned (zohoAccessToken c), [])
    else index_result now c (net index_exchange_req).
Proof.
  unfold Index.getZohoAccessToken. cbn [bind run]. fold (cached_at now c).
  destruct (cached_at now c); [reflexivity |].
  unfold index_result, index_exchange_req. cbn.
  destruct (net _) as [s d | m]; cbn; [| reflexivity].
  destruct (default_validateStatus s); cbn; [| reflexivity].
  destruct d; reflexivity.
Qed.

Lemma exchanges_refresh (now : Z) (o : NetOutcome) :
  exchanges (trace_of (refresh_result now o)) = 1%nat.
Proof. unfold refresh_result. destruct (exchanged o); reflexivity. Qed.

Lemma exchanges_index (now : Z) (c : Cache) (o : NetOutcome) :
  exchanges (trace_of (index_result now c o)) = 1%nat.
Proof.
  unfold index_result. destruct (axios_settle _ o) as [v | e]; [| reflexivity].
  destruct (data v); reflexivity.
Qed.

Lemma cached_at_expired (now e : Z) (c : Cache) :
  tokenExpiryTime c = Some e -> e <= now -> cached_at now c = false.
Proof.
  intros E L. unfold cached_at. rewrite E. cbn [before].
  destruct (Z.ltb_spec now e); [lia |]. now rewrite andb_false_r.
Qed.

Lemma cached_at_before (now e : Z) (c : Cache) :
  tokenExpiryTime c = Some e -> cached_at now c = true -> now < e.
Proof.
  intros E H. unfold cached_at in H. rewrite E in H. cbn [before] in H.
  apply andb_prop in H as [_ H]. now apply Z.ltb_lt.
Qed.

(** The trace of a later call of either variant: one exchange once the
    cache is not usable, none only while it is. *)
Lemma later_call_exchanges (v : Variant) (now : Z) (net : Request -> NetOutcome) (c : Cache) :
  (cached_at now c = false -> exchanges (trace_of (run net (acquire v now) c)) = 1%nat)
  /\ (exchanges (trace_of (run net (acquire v now) c)) = 0%nat -> cached_at now c = true).
Proof.
  destruct v; cbn [acquire].
  - rewrite run_server_get. destruct (cached_at now c).
    + split; [discriminate | reflexivity].
    + split; [intros _ | intros H]; [| rewrite exchanges_refresh in H; discriminate].
      apply exchanges_refresh.
  - rewrite run_index_get. destruct (cached_at now c).
    + split; [discriminate | reflexivity].
    + split; [intros _ | intros H]; [| rewrite exchanges_index in H; discriminate].
      apply exchanges_index.
Qed.

(** The cache a call that exchanged and returned leaves behind. *)
Lemma exchange_sets_expiry (v : Variant) (T : Z) (net : Request -> NetOutcome)
      (c c1 : Cache) (tok : JSVal) (tr : list Request) :
  run net (acquire v T) c = (c1, Returned tok, tr) ->
  (0 < exchanges tr)%nat ->
  tokenExpiryTime c1 = Some (T + fifty_five_minutes).
Proof.
  destruct v; cbn [acquire].
  - rewrite run_server_get. unfold refresh_result.
    destruct (cached_at T c); [destruct (probe_passes _) |];
      try destruct (exchanged _);
      intros E Hex; inversion E; subst; cbn in Hex; try lia; reflexivity.
  - rewrite run_index_get. unfold index_result.
    destruct (cached_at T c).
    + intros E Hex; inversion E; subst; cbn in Hex; lia.
    + destruct (axios_settle _ _) as [r | e]; [| discriminate].
      destruct (data r); intros E Hex; inversion E; subst; reflexivity.
Qed.

(** C1.  In server.js and in index.js, a call at time [T] that exchanges
    and returns leaves the expiry [T] + 55 minutes, whatever the response
    holds; a later call at [T'] on that cache performs one exchange when
    [T'] is at or after [T] + 55 minutes, and goes without an exchange only
    if [T'] is before it. *)
Theorem token_expiry_policy
        (v : Variant) (T : Z) (net : Request -> NetOutcome)
        (c c1 : Cache) (tok : JSVal) (tr : list Request) :
  run net (acquire v T) c = (c1, Returned tok, tr) ->
  (0 < exchanges tr)%nat ->
  tokenExpiryTime c1 = Some (T + 55 * 60 * 1000)
  /\ forall (T' : Z) (net' : Request -> NetOutcome),
       (T + 55 * 60 * 1000 <= T' ->
        exchanges (trace_of (run net' (acquire v T') c1)) = 1%nat)
       /\ (exchanges (trace_of (run net' (acquire v T') c1)) = 0%nat ->
           T' < T + 55 * 60 * 1000).
Proof.
  intros Hrun Hex.
  pose proof (exchange_sets_expiry v T net c c1 tok tr Hrun Hex) as E.
  split; [exact E |]. intros T' net'.
  destruct (later_call_exchanges v T' net' c1) as [H1 H0]. split.
  - intros L. apply H1. eapply cached_at_expired; eauto.
  - intros H. eapply cached_at_before; eauto.
Qed.

Lemma token_expiry_policy_witness :
  tokenExpiryTime
    {| zohoAccessToken := JStr "1000.abc";
       tokenExpiryTime := Some (1700000000000 + 55 * 60 * 1000) |}
  = Some (1700000000000 + 55 * 60 * 1000)
  /\ forall (T' : Z) (net' : Request -> NetOutcome),
       (1700000000000 + 55 * 60 * 1000 <= T' ->
        exchanges (trace_of (run net' (acquire ServerJs T')
          {| zohoAccessToken := JStr "1000.abc";
             tokenExpiryTime := Some (1700000000000 + 55 * 60 * 1000) |})) = 1%nat)
       /\ (exchanges (trace_of (run net' (acquire ServerJs T')
             {| zohoAccessToken := JStr "1000.abc";
                tokenExpiryTime := Some (1700000000000 + 55 * 60 * 1000) |})) = 0%nat ->
           T' < 1700000000000 + 55 * 60 * 1000).
Proof.
  apply (token_expiry_policy ServerJs 1700000000000
           (fun _ => Responded 200 (JObj [("access_token", JStr "1000.abc");
                                          ("expires_in", JNum 3600)]))
           initial _ (JStr "1000.abc") [exchange_req]).
  - reflexivity.
  - cbn. lia.
Defined.

(** *** Probe before reuse (server.js) *)

(** A call during which no other handler runs: when a usable credential is
    cached and the probe answers 200, the call issues the probe and nothing
    else, leaves the cache as it was and returns the cached credential. *)
Lemma probe_success_skips_exchange
        (now : Z) (net : Request -> NetOutcome) (c : Cache) :
  cached_at now c = true ->
  probe_passes (net (probe_req (zohoAccessToken c))) = true ->
  run net (Server.getZohoAccessToken now) c
  = (c, Returned (zohoAccessToken c), [probe_req (zohoAccessToken c)])
  /\ exchanges (trace_of (run net (Server.getZohoAccessToken now) c)) = 0%nat.
Proof.
  intros Hc Hp. rewrite run_server_get, Hc, Hp. split; reflexivity.
Qed.

Lemma probe_success_skips_exchange_witness :
  run (fun _ => Responded 200 JNull) (Server.getZohoAccessToken 1700000600000)
      {| zohoAccessToken := JStr "1000.abc"; tokenExpiryTime := Some 1700003300000 |}
  = ({| zohoAccessToken := JStr "1000.abc"; tokenExpiryTime := Some 1700003300000 |},
     Returned (JStr "1000.abc"), [probe_req (JStr "1000.abc")])
  /\ exchanges (trace_of
       (run (fun _ => Responded 200 JNull) (Server.getZohoAccessToken 1700000600000)
            {| zohoAccessToken := JStr "1000.abc";
               tokenExpiryTime := Some 1700003300000 |})) = 0%nat.
Proof.
  apply (probe_success_skips_exchange 1700000600000 (fun _ => Responded 200 JNull)
           {| zohoAccessToken := JStr "1000.abc"; tokenExpiryTime := Some 1700003300000 |});
    reflexivity.
Defined.

(** Whatever the cache has become when the probe answers 200, the call
    resumes by returning the value [zohoAccessToken] holds at that moment,
    without a request and without touching the cache. *)
Lemma resume_after_passed_probe (now : Z) (o : NetOutcome) (c c2 : Cache) :
  cached_at now c = true ->
  probe_passes o = true ->
  resume (snd (advance (Server.getZohoAccessToken now) c)) o c2
  = (c2, Finished (Returned (zohoAccessToken c2))).
Proof.
  intros H P. unfold Server.getZohoAccessToken. cbn [bind advance].
  fold (cached_at now c). rewrite H. cbn.
  destruct o as [s d | m]; [| discriminate]. cbn in P.
  apply Z.eqb_eq in P. subst s. reflexivity.
Qed.

(** C5 at the failing input, server.js.  Two calls find the credential
    "1000.abc" cached and not expired, and both send the probe.  The probe
    of the second times out: that call empties the cache and sends the
    exchange (lines 163-166).  Then the probe of the first answers 200: the
    call sends no exchange, but line 162 returns the variable, not the
    token that was probed, and the variable is now [null].  The state is
    one the server reaches from its start. *)
Theorem validated_token_lost_to_concurrent_refresh :
  cached_at 1700000600000
            {| zohoAccessToken := JStr "1000.abc";
               tokenExpiryTime := Some 1700003300000 |} = true
  /\ pending (snd (advance (Server.getZohoAccessToken 1700000600000)
                           {| zohoAccessToken := JStr "1000.abc";
                              tokenExpiryTime := Some 1700003300000 |}))
     = Some (probe_req (JStr "1000.abc"))
  /\ fst (resume (snd (advance (Server.getZohoAccessToken 1700000600001)
                               {| zohoAccessToken := JStr "1000.abc";
                                  tokenExpiryTime := Some 1700003300000 |}))
                 (NetFail "timeout of 5000ms exceeded")
                 {| zohoAccessToken := JStr "1000.abc";
                    tokenExpiryTime := Some 1700003300000 |})
     = initial
  /\ probe_passes (Responded 200 JNull) = true
  /\ resume (snd (advance (Server.getZohoAccessToken 1700000600000)
                          {| zohoAccessToken := JStr "1000.abc";
                             tokenExpiryTime := Some 1700003300000 |}))
            (Responded 200 JNull) initial
     = (initial, Finished (Returned JNull))
  /\ exists s : Sys,
       reachable Server.handler s
       /\ cache s = initial
       /\ nth_error (tasks s) 1 = Some (Finished (Returned JNull)).
Proof.
  repeat (split; [reflexivity |]).
  eexists. split.
  { eapply reach_turn.
    - eapply reach_turn.
      + eapply reach_turn.
        * eapply reach_turn.
          -- eapply reach_turn.
             ++ eapply reach_turn; [apply reach_boot |].
                apply (turn_start Server.handler boot _
                                  (Server.handler_get 1700000000000)).
             ++ eapply (turn_resume Server.handler _ 0 _ _
                          (Responded 200 (JObj [("access_token", JStr "1000.abc")]))).
                reflexivity.
          -- apply (turn_start Server.handler _ _ (Server.handler_get 1700000600000)).
        * apply (turn_start Server.handler _ _ (Server.handler_get 1700000600001)).
      + eapply (turn_resume Server.handler _ 2 _ _
                            (NetFail "timeout of 5000ms exceeded")).
        reflexivity.
    - eapply (turn_resume Server.handler _ 1 _ _ (Responded 200 JNull)).
      reflexivity. }
  split; reflexivity.
Qed.

(** On the same cache index.js, which has no probe, returns the credential
    without any request. *)
Lemma index_reuse_before_expiry (now : Z) (net : Request -> NetOutcome) (c : Cache) :
  cached_at now c = true ->
  run net (Index.getZohoAccessToken now) c = (c, Returned (zohoAccessToken c), []).
Proof. intros H. now rewrite run_index_get, H. Qed.

Lemma advance_server_get_cached (now : Z) (c : Cache) :
  cached_at now c = true ->
  fst (advance (Server.getZohoAccessToken now) c) = c
  /\ pending (snd (advance (Server.getZohoAccessToken now) c))
     = Some (probe_req (zohoAccessToken c)).
Proof.
  intros H. unfold Server.getZohoAccessToken. cbn [bind advance].
  fold (cached_at now c). rewrite H. split; reflexivity.
Qed.

Lemma resume_after_failed_probe (now : Z) (o : NetOutcome) (c : Cache) :
  cached_at now c = true ->
  probe_passes o = false ->
  fst (resume (snd (advance (Server.getZohoAccessToken now) c)) o c) = initial
  /\ pending (snd (resume (snd (advance (Server.getZohoAccessToken now) c)) o c))
     = Some exchange_req.
Proof.
  intros H P. unfold Server.getZohoAccessToken. cbn [bind advance].
  fold (cached_at now c). rewrite H. cbn.
  destruct o as [s d | m]; cbn; [| split; reflexivity].
  cbn in P. destruct (default_validateStatus s); cbn; [| split; reflexivity].
  rewrite P. cbn. split; reflexivity.
Qed.

(** C6.  When a usable credential is cached and the probe fails (no
    response, or a status other than 200), the call resumes from the probe
    by emptying the cache and sending the exchange; it sends exactly that
    one exchange, and returns and caches the credential the exchange hands
    out. *)
Theorem probe_failure_forces_one_exchange
        (now : Z) (net : Request -> NetOutcome) (c : Cache) :
  cached_at now c = true ->
  probe_passes (net (probe_req (zohoAccessToken c))) = false ->
  let waiting := snd (advance (Server.getZohoAccessToken now) c) in
  let resumed := resume waiting (net (probe_req (zohoAccessToken c))) c in
  pending waiting = Some (probe_req (zohoAccessToken c))
  /\ fst resumed = initial
  /\ pending (snd resumed) = Some exchange_req
  /\ trace_of (run net (Server.getZohoAccessToken now) c)
     = [probe_req (zohoAccessToken c); exchange_req]
  /\ exchanges (trace_of (run net (Server.getZohoAccessToken now) c)) = 1%nat
  /\ forall tok : JSVal,
       exchanged (net exchange_req) = Some tok ->
       run net (Server.getZohoAccessToken now) c
       = ({| zohoAccessToken := tok; tokenExpiryTime := Some (now + 55 * 60 * 1000) |},
          Returned tok, [probe_req (zohoAccessToken c); exchange_req]).
Proof.
  intros Hc Hp waiting resumed.
  destruct (advance_server_get_cached now c Hc) as [_ Hw].
  destruct (resume_after_failed_probe now _ c Hc Hp) as [Hr1 Hr2].
  rewrite run_server_get, Hc, Hp. unfold refresh_result.
  repeat split; auto.
  - destruct (exchanged _); reflexivity.
  - destruct (exchanged _); reflexivity.
  - intros tok ->. reflexivity.
Qed.

Lemma probe_failure_forces_one_exchange_witness :
  run revoked_then_renewed (Server.getZohoAccessToken 1700000600000)
      {| zohoAccessToken := JStr "1000.old"; tokenExpiryTime := Some 1700003300000 |}
  = ({| zohoAccessToken := JStr "1000.new";
        tokenExpiryTime := Some (1700000600000 + 55 * 60 * 1000) |},
     Returned (JStr "1000.new"), [probe_req (JStr "1000.old"); exchange_req]).
Proof.
  apply (probe_failure_forces_one_exchange 1700000600000 revoked_then_renewed
           {| zohoAccessToken := JStr "1000.old"; tokenExpiryTime := Some 1700003300000 |}
           eq_refl eq_refl).
  reflexivity.
Defined.

(** *** Failed exchange (server.js) *)

(** A failed exchange empties the cache and makes the call throw, from any
    cache, whether or not a probe came first. *)
Lemma failed_exchange_clears_cache (now : Z) (net : Request -> NetOutcome) (c : Cache) :
  exchange_failed (net exchange_req) ->
  cached_at now c = false
  \/ probe_passes (net (probe_req (zohoAccessToken c))) = false ->
  exists tr,
    run net (Server.getZohoAccessToken now) c
    = (initial, Thrown (refresh_error (net exchange_req)), tr)
    /\ exchanges tr = 1%nat.
Proof.
  unfold exchange_failed. intros F H. rewrite run_server_get. unfold refresh_result.
  rewrite F. destruct (cached_at now c).
  - destruct H as [H | H]; [discriminate |]. rewrite H. eexists; split; reflexivity.
  - eexists; split; reflexivity.
Qed.

(** The error thrown wraps the upstream message whenever the refused
    response has a body. *)
Lemma refresh_error_message (o : NetOutcome) :
  body_missing o = false ->
  message (refresh_error o)
  = "Failed to get Zoho access token: " ++ upstream_message o.
Proof.
  unfold refresh_error, upstream_message, body_missing.
  destruct o as [s d | m]; cbn; [| reflexivity].
  destruct (default_validateStatus s); cbn; [reflexivity |].
  destruct d; cbn; intros H; try discriminate; reflexivity.
Qed.

(** C4 at the failing input: the token endpoint answers 500 with the JSON
    body [null].  The cache is emptied and the call throws, but the error
    is the [TypeError] of reading [error.response.data.error] in the
    [catch] block; the upstream message, "Request failed with status code
    500", is not in it. *)
Theorem exchange_error_lost_on_null_body :
  run (fun _ => Responded 500 JNull) (Server.getZohoAccessToken 1700000000000)
      {| zohoAccessToken := JStr "1000.old"; tokenExpiryTime := Some 1600000000000 |}
  = (initial, Thrown (Error "Cannot read properties of null (reading 'error')"),
     [exchange_req])
  /\ upstream_message (Responded 500 JNull) = "Request failed with status code 500".
Proof. split; reflexivity. Qed.

(** *** Token and expiry as a pair *)

Lemma truthy_is_set (v : JSVal) : truthy v = true -> is_set v = true.
Proof. destruct v; simpl; congruence. Qed.

Lemma paired_initial : paired initial.
Proof. reflexivity. Qed.

Lemma server_refresh_keeps (now : Z) (c : Cache) :
  paired c -> inv_prog paired (Server.getZohoAccessToken_refresh now) c.
Proof.
  intros H. unfold Server.getZohoAccessToken_refresh. cbn.
  split; [exact H |]. intros o c2 _.
  destruct o as [s d | m]; cbn; [| reflexivity].
  destruct (default_validateStatus s); cbn.
  - destruct d; cbn; try reflexivity.
    destruct (truthy (get_field "access_token" fields)) eqn:T; cbn; [| reflexivity].
    unfold paired. cbn. now apply truthy_is_set.
  - destruct d; reflexivity.
Qed.

Lemma server_get_keeps (now : Z) (c : Cache) :
  paired c -> inv_prog paired (Server.getZohoAccessToken now) c.
Proof.
  intros H. unfold Server.getZohoAccessToken. cbn [bind inv_prog].
  destruct (_ && _); [| now apply server_refresh_keeps].
  cbn. split; [exact H |]. intros o c2 H2.
  assert (R : inv_prog paired (Server.getZohoAccessToken_refresh now) initial)
    by (apply server_refresh_keeps, paired_initial).
  destruct o as [s d | m]; cbn; [| exact R].
  destruct (default_validateStatus s); cbn; [| exact R].
  destruct (s =? 200); cbn; [exact H2 | exact R].
Qed.

Lemma server_handler_keeps (p : Prog JSVal) (c : Cache) :
  Server.handler p -> paired c -> inv_prog paired p c.
Proof.
  intros [now | now] H.
  - now apply server_get_keeps.
  - unfold Server.refresh_token_route. cbn [bind set_token set_expiry inv_prog].
    apply server_get_keeps, paired_initial.
Qed.

Lemma advance_keeps (I : Cache -> Prop) (p : Prog JSVal) :
  forall c, inv_prog I p c ->
            I (fst (advance p c)) /\ task_keeps I (snd (advance p c)).
Proof.
  induction p as [a | e | k IH | c' k IH | r k IH]; intros c H; cbn in *.
  - split; [exact H | exact Logic.I].
  - split; [exact H | exact Logic.I].
  - now apply IH.
  - now apply IH.
  - destruct H as [H K]. split; [exact H | exact K].
Qed.

Lemma Forall_update_nth {A : Type} (P : A -> Prop) (x : A) (l : list A) :
  forall i, Forall P l -> P x -> Forall P (update_nth i x l).
Proof.
  induction l as [| y l IH]; intros [| i] Hl Hx; simpl; auto;
    inversion Hl; subst; constructor; auto.
Qed.

(** In server.js, whatever requests arrive and however their handlers
    interleave, at every suspension the token and its expiry are both set or
    both absent. *)
Lemma server_cache_always_paired (s : Sys) :
  reachable Server.handler s -> paired (cache s).
Proof.
  intros R.
  enough (paired (cache s) /\ Forall (task_keeps paired) (tasks s)) by tauto.
  induction R as [| s s' _ [Hc Ht] Hturn].
  - split; [apply paired_initial | constructor].
  - destruct Hturn as [s p Hp | s i r k o Hi]; cbn [cache tasks].
    + destruct (advance_keeps paired p (cache s)) as [H1 H2];
        [now apply server_handler_keeps |].
      split; [exact H1 |]. apply Forall_app. split; [exact Ht | now constructor].
    + assert (K : task_keeps paired (Waiting r k)).
      { rewrite Forall_forall in Ht. apply Ht. eapply nth_error_In; eauto. }
      destruct (advance_keeps paired (k o) (cache s)) as [H1 H2]; [now apply K |].
      split; [exact H1 |]. now apply Forall_update_nth.
Qed.

(** C7 at the failing input, index.js: the token endpoint answers 200 with
    a body that has no [access_token] (Zoho reports a bad refresh token this
    way).  The call stores [undefined] as the token next to an expiry 55
    minutes ahead and returns [undefined]; the state is one the next
    request observes. *)
Theorem index_cache_torn_without_access_token :
  run (fun _ => Responded 200 (JObj [("error", JStr "invalid_code")]))
      (Index.getZohoAccessToken 1700000000000) initial
  = ({| zohoAccessToken := JUndefined; tokenExpiryTime := Some 1700003300000 |},
     Returned JUndefined, [index_exchange_req])
  /\ ~ paired {| zohoAccessToken := JUndefined; tokenExpiryTime := Some 1700003300000 |}
  /\ exists s : Sys,
       reachable Index.handler s
       /\ cache s = {| zohoAccessToken := JUndefined;
                       tokenExpiryTime := Some 1700003300000 |}.
Proof.
  split; [reflexivity |]. split; [discriminate |].
  eexists. split.
  - eapply reach_turn.
    + eapply reach_turn; [apply reach_boot |].
      apply (turn_start Index.handler boot _ (Index.handler_get 1700000000000)).
    + eapply (turn_resume Index.handler _ 0 _ _
                          (Responded 200 (JObj [("error", JStr "invalid_code")]))).
      reflexivity.
  - reflexivity.
Qed.

(* ================================================================= *)
(** * Further properties *)

(** ** The list of webhook URLs *)

Lemma split_comma_length (s : string) :
  List.length (split_comma s) = S (count_commas s).
Proof.
  induction s as [| c s IH]; [reflexivity |].
  cbn [split_comma count_commas]. destruct (Ascii.eqb c ","); cbn [List.length].
  - now rewrite IH.
  - destruct (split_comma s) as [| piece pieces]; [discriminate | exact IH].
Qed.

(** X1.  A configured, non-empty variable yields one target per
    comma-separated piece, empty pieces included: one more target than the
    value has commas, so never an empty list. *)
Theorem webhook_urls_count (s : string) :
  s <> "" ->
  List.length (webhook_urls (Some s)) = S (count_commas s)
  /\ webhook_urls (Some s) <> [].
Proof.
  intros N. unfold webhook_urls.
  destruct (String.eqb_spec s "") as [E | _]; [contradiction |].
  assert (L : List.length (map trim (split_comma s)) = S (count_commas s))
    by (rewrite length_map; apply split_comma_length).
  split; [exact L |]. intros E. rewrite E in L. discriminate.
Qed.

Lemma webhook_urls_count_witness :
  "http://a.example,,http://b.example," <> ""
  /\ List.length (webhook_urls (Some "http://a.example,,http://b.example,")) = 4%nat.
Proof.
  split; [discriminate |].
  apply (proj1 (webhook_urls_count "http://a.example,,http://b.example,"
                                   ltac:(discriminate))).
Defined.

Lemma split_comma_no_comma (s : string) :
  Forall (fun piece => count_commas piece = O) (split_comma s).
Proof.
  induction s as [| c s IH]; [repeat constructor |].
  cbn [split_comma]. destruct (Ascii.eqb c ",") eqn:E.
  - constructor; [reflexivity | exact IH].
  - destruct (split_comma s) as [| piece pieces]; [repeat constructor; cbn; now rewrite E |].
    inversion IH; subst. constructor; [cbn; now rewrite E | assumption].
Qed.

Lemma count_commas_app (a b : string) :
  count_commas (a ++ b) = (count_commas a + count_commas b)%nat.
Proof.
  induction a as [| c a IH]; [reflexivity |]. cbn.
  destruct (Ascii.eqb c ","); cbn; now rewrite IH.
Qed.

Lemma is_space2_exclusive (a b : ascii) : is_space2 a b = true -> is_space a = false.
Proof.
  unfold is_space2, is_space. intros H. apply andb_prop in H as [H _].
  apply Nat.eqb_eq in H. now rewrite H.
Qed.

Lemma is_space3_exclusive (a b c : ascii) :
  is_space3 a b c = true -> is_space a = false /\ is_space2 a b = false.
Proof.
  unfold is_space3, is_space, is_space2. intros H.
  repeat (apply orb_prop in H as [H | H]);
    repeat (apply andb_prop in H as [H ?]);
    apply Nat.eqb_eq in H; rewrite H; split; reflexivity.
Qed.

(** What [trim_start] removes is in front, and what it leaves does not
    begin with white space. *)
Lemma trim_start_spec (n : nat) :
  forall s, (String.length s <= n)%nat ->
            starts_space (trim_start s) = false
            /\ exists pre, s = pre ++ trim_start s.
Proof.
  induction n as [| n IH]; intros s L.
  - destruct s; [| inversion L]. split; [reflexivity | now exists ""].
  - destruct s as [| a s1]; [split; [reflexivity | now exists ""] |].
    cbn [String.length] in L. cbn [trim_start].
    destruct (is_space a) eqn:Sa.
    { destruct (IH s1 ltac:(lia)) as [H (pre & E)]. split; [exact H |].
      exists (String a pre). cbn. now rewrite <- E. }
    destruct s1 as [| b s2].
    { split; [cbn; now rewrite Sa | now exists ""]. }
    cbn [String.length] in L. destruct (is_space2 a b) eqn:Sb.
    { destruct (IH s2 ltac:(lia)) as [H (pre & E)]. split; [exact H |].
      exists (String a (String b pre)). cbn. now rewrite <- E. }
    destruct s2 as [| c s3].
    { split; [cbn; now rewrite Sa, Sb | now exists ""]. }
    cbn [String.length] in L. destruct (is_space3 a b c) eqn:Sc.
    { destruct (IH s3 ltac:(lia)) as [H (pre & E)]. split; [exact H |].
      exists (String a (String b (String c pre))). cbn. now rewrite <- E. }
    split; [cbn; now rewrite Sa, Sb, Sc | now exists ""].
Qed.

Lemma trim_end_split (s : string) :
  exists tail, s = trim_end s ++ tail /\ blank tail = true.
Proof.
  induction s as [| a rest IH]; [now exists "" |].
  cbn [trim_end]. destruct (blank (String a rest)) eqn:B.
  - exists (String a rest). split; [reflexivity | exact B].
  - destruct IH as (tail & E & T). exists tail. split; [| exact T].
    cbn. now rewrite <- E.
Qed.

Lemma blank_app (n : nat) :
  forall x y, (String.length x <= n)%nat ->
              blank x = true -> blank y = true -> blank (x ++ y) = true.
Proof.
  induction n as [| n IH]; intros x y L Bx By.
  - destruct x; [exact By | inversion L].
  - destruct x as [| a x1]; [exact By |].
    cbn [String.length] in L. cbn [append blank] in *.
    destruct (is_space a); [apply IH; auto; lia |].
    destruct x1 as [| b x2]; [discriminate |].
    cbn [String.length] in L. cbn [append] in *.
    destruct (is_space2 a b); [apply IH; auto; lia |].
    destruct x2 as [| c x3]; [discriminate |].
    cbn [String.length] in L. cbn [append] in *.
    destruct (is_space3 a b c); [apply IH; auto; lia | discriminate].
Qed.

Lemma space_char_blank (w : string) : space_char w = true -> blank w = true /\ w <> "".
Proof.
  destruct w as [| a [| b [| c [| d w]]]]; cbn; try discriminate; intros H.
  - rewrite H. split; [reflexivity | discriminate].
  - rewrite (is_space2_exclusive a b H), H. split; [reflexivity | discriminate].
  - destruct (is_space3_exclusive a b c H) as [Sa Sb]. rewrite Sa, Sb, H.
    split; [reflexivity | discriminate].
Qed.

Lemma space_char_starts (w rest : string) :
  space_char w = true -> starts_space (w ++ rest) = true.
Proof.
  destruct w as [| a [| b [| c [| d w]]]]; cbn; try discriminate; intros H.
  - now rewrite H.
  - now rewrite (is_space2_exclusive a b H), H.
  - destruct (is_space3_exclusive a b c H) as [Sa Sb]. now rewrite Sa, Sb, H.
Qed.

Lemma trim_end_no_blank_suffix (s : string) :
  forall p w, trim_end s = p ++ w -> w <> "" -> blank w = false.
Proof.
  induction s as [| a rest IH]; intros p w E N.
  - destruct p; cbn in E; [congruence | discriminate].
  - cbn [trim_end] in E. destruct (blank (String a rest)) eqn:B.
    + destruct p; cbn in E; [congruence | discriminate].
    + destruct p as [| a' p'].
      * cbn in E. subst w. destruct (blank (String a (trim_end rest))) eqn:Bw; [| reflexivity].
        destruct (trim_end_split rest) as (tail & Er & T).
        pose proof (blank_app _ _ tail (Nat.le_refl _) Bw T) as Bs.
        cbn [append] in Bs. rewrite <- Er in Bs. congruence.
      * cbn in E. injection E as <- E. now apply (IH p' w).
Qed.

(** X2.  Every target of the list is free of commas and neither begins nor
    ends with a white-space code point, those outside ASCII included. *)
Theorem webhook_urls_trimmed (env : option string) (u : string) :
  In u (webhook_urls env) ->
  count_commas u = O
  /\ (forall w rest, u = w ++ rest -> space_char w = false)
  /\ (forall p w, u = p ++ w -> space_char w = false).
Proof.
  unfold webhook_urls. destruct env as [s |]; [| contradiction].
  destruct (s =? "")%string; [contradiction |].
  rewrite in_map_iff. intros (piece & <- & Hin).
  pose proof (split_comma_no_comma s) as F. rewrite Forall_forall in F.
  specialize (F piece Hin). unfold trim.
  destruct (trim_start_spec _ piece (Nat.le_refl _)) as [Hs (pre & Ep)].
  destruct (trim_end_split (trim_start piece)) as (tail & Et & _).
  refine (conj _ (conj _ _)).
  - rewrite Ep, Et, !count_commas_app in F. lia.
  - intros w rest E. destruct (space_char w) eqn:W; [| reflexivity].
    rewrite Et, E in Hs.
    assert (A : (w ++ rest) ++ tail = w ++ (rest ++ tail)).
    { clear. induction w as [| c w IH]; cbn; [reflexivity | now rewrite IH]. }
    rewrite A, (space_char_starts w _ W) in Hs. discriminate.
  - intros p w E. destruct (space_char w) eqn:W; [| reflexivity].
    destruct (space_char_blank w W) as [B N].
    rewrite (trim_end_no_blank_suffix _ p w E N) in B. discriminate.
Qed.

Lemma webhook_urls_trimmed_witness :
  In "http://b.example" (webhook_urls (Some " http://a.example , http://b.example  "))
  /\ count_commas "http://b.example" = O.
Proof.
  split; [right; left; reflexivity |].
  apply (proj1 (webhook_urls_trimmed (Some " http://a.example , http://b.example  ")
                                     "http://b.example"
                                     (or_intror (or_introl eq_refl)))).
Defined.

(** A no-break space (C2 A0) and a line separator (E2 80 A8) around a
    target are removed like the ASCII space. *)
Example webhook_urls_unicode_space :
  webhook_urls
    (Some (String (ascii_of_nat 194) (String (ascii_of_nat 160)
             ("http://a.example"
              ++ String (ascii_of_nat 226) (String (ascii_of_nat 128)
                   (String (ascii_of_nat 168) ",http://b.example "))))))
  = ["http://a.example"; "http://b.example"].
Proof. reflexivity. Qed.

Lemma split_comma_nonempty (s : string) : split_comma s <> [].
Proof.
  intros E. pose proof (split_comma_length s) as L. rewrite E in L. discriminate.
Qed.

(** X3.  Splitting at the commas loses nothing: joining the pieces with
    commas gives the configured value back. *)
Theorem split_comma_join (s : string) :
  String.concat "," (split_comma s) = s.
Proof.
  induction s as [| c s IH]; [reflexivity |].
  cbn [split_comma]. destruct (Ascii.eqb_spec c ",") as [-> | N].
  - pose proof (split_comma_nonempty s) as Hne.
    destruct (split_comma s) as [| piece pieces]; [contradiction |].
    cbn [String.concat] in *. rewrite IH. reflexivity.
  - pose proof (split_comma_nonempty s) as Hne.
    destruct (split_comma s) as [| piece pieces]; [contradiction |].
    destruct pieces as [| p2 ps]; cbn [String.concat] in *; rewrite <- IH; reflexivity.
Qed.

(** ** The report of [/api/vendors] *)

Lemma vendor_detail_at (env : option string) (net : Net) (i : nat) (u : string) :
  nth_error (webhook_urls env) i = Some u ->
  nth_error (Server.details (Server.vendor_webhooks env net)) i
  = Some (detail_of (webhook_urls env) i (axios_settle webhook_validateStatus (net i u))).
Proof.
  intros H. rewrite vendor_webhooks_details. unfold mapi, settle_all, mapi.
  rewrite !nth_error_mapi_from. cbn [Nat.add]. rewrite H. reflexivity.
Qed.

(** X4.  In the report of [/api/vendors] of server.js the entry at the
    position of a target carries that target's URL and describes its own
    request: status and no error for an answer in [200,400); "Unknown
    error" and no status for an answer in [400,500); axios' "Request failed
    with status code N" for any other answer; the transport's message for a
    request without answer, "Unknown error" when that message is empty. *)
Theorem vendor_detail_per_target
        (env : option string) (net : Net) (i : nat) (u : string) :
  nth_error (webhook_urls env) i = Some u ->
  exists d : Server.Detail,
    nth_error (Server.details (Server.vendor_webhooks env net)) i = Some d
    /\ Server.url d = JStr u
    /\ (forall s b, net i u = Responded s b -> 200 <= s < 400 ->
          Server.outcome d = "success" /\ Server.statusCode d = Some s
          /\ Server.error d = None)
    /\ (forall s b, net i u = Responded s b -> 400 <= s < 500 ->
          Server.outcome d = "failed" /\ Server.statusCode d = None
          /\ Server.error d = Some "Unknown error")
    /\ (forall s b, net i u = Responded s b -> s < 200 \/ 500 <= s ->
          Server.outcome d = "failed" /\ Server.statusCode d = None
          /\ Server.error d
             = Some ("Request failed with status code " ++ num_to_string s))
    /\ (forall m, net i u = NetFail m ->
          Server.outcome d = "failed" /\ Server.statusCode d = None
          /\ Server.error d = Some (if (m =? "")%string then "Unknown error" else m)).
Proof.
  intros H. eexists. split; [apply vendor_detail_at; exact H |].
  assert (U : at_index (webhook_urls env) i = JStr u)
    by (unfold at_index; now rewrite H).
  split; [unfold detail_of; destruct (delivered _); exact U |].
  unfold detail_of. rewrite delivered_settle.
  refine (conj _ (conj _ (conj _ _))).
  - intros s b -> R.
    assert (E : (200 <=? s) && (s <? 400) = true)
      by (apply andb_true_intro; split; [apply Z.leb_le | apply Z.ltb_lt]; lia).
    rewrite E. cbn. unfold webhook_validateStatus.
    assert (V : (200 <=? s) && (s <? 500) = true)
      by (apply andb_true_intro; split; [apply Z.leb_le | apply Z.ltb_lt]; lia).
    rewrite V. repeat split.
  - intros s b -> R.
    assert (E : (200 <=? s) && (s <? 400) = false)
      by (apply andb_false_iff; right; apply Z.ltb_ge; lia).
    rewrite E. cbn. unfold webhook_validateStatus.
    assert (V : (200 <=? s) && (s <? 500) = true)
      by (apply andb_true_intro; split; [apply Z.leb_le | apply Z.ltb_lt]; lia).
    rewrite V. repeat split.
  - intros s b -> R.
    assert (E : (200 <=? s) && (s <? 400) = false)
      by (apply andb_false_iff; destruct R;
          [left; apply Z.leb_gt | right; apply Z.ltb_ge]; lia).
    rewrite E. cbn. unfold webhook_validateStatus.
    assert (V : (200 <=? s) && (s <? 500) = false)
      by (apply andb_false_iff; destruct R;
          [left; apply Z.leb_gt | right; apply Z.ltb_ge]; lia).
    rewrite V. repeat split.
  - intros m ->. cbn. repeat split.
Qed.

Lemma vendor_detail_per_target_witness :
  exists d : Server.Detail,
    nth_error (Server.details
                 (Server.vendor_webhooks (Some "http://a.example,http://b.example")
                    (fun i _ => match i with
                                | O => Responded 204 JNull
                                | _ => Responded 503 JNull
                                end))) 1 = Some d
    /\ Server.url d = JStr "http://b.example"
    /\ Server.error d = Some "Request failed with status code 503".
Proof.
  destruct (vendor_detail_per_target
              (Some "http://a.example,http://b.example")
              (fun i _ => match i with
                          | O => Responded 204 JNull
                          | _ => Responded 503 JNull
                          end) 1 "http://b.example" eq_refl)
    as (d & Hd & Hu & _ & _ & H5 & _).
  exists d. split; [exact Hd |]. split; [exact Hu |].
  apply (H5 503 JNull eq_refl). right. lia.
Defined.

(** X5.  The detail list of [/api/vendors] lists the targets in the order
    of the configured list, one entry each. *)
Theorem vendor_details_in_order (env : option string) (net : Net) :
  map Server.url (Server.details (Server.vendor_webhooks env net))
  = map JStr (webhook_urls env).
Proof.
  apply nth_error_ext. intros i. rewrite !nth_error_map.
  destruct (nth_error (webhook_urls env) i) as [u |] eqn:E.
  - rewrite (vendor_detail_at env net i u E). cbn [option_map]. f_equal.
    unfold detail_of, at_index. rewrite E. destruct (delivered _); reflexivity.
  - cbn [option_map]. rewrite vendor_webhooks_details.
    unfold mapi, settle_all, mapi. rewrite !nth_error_mapi_from, E. reflexivity.
Qed.

Lemma fulfilled_then_delivered (o : NetOutcome) :
  ServerV1.fulfilled (axios_settle default_validateStatus o) = true ->
  delivered (axios_settle webhook_validateStatus o) = true.
Proof.
  rewrite fulfilled_settle, delivered_settle. destruct o as [s d | m]; [| discriminate].
  intros H. apply andb_prop in H as [L U].
  apply Z.leb_le in L. apply Z.ltb_lt in U.
  apply andb_true_intro. split; [apply Z.leb_le | apply Z.ltb_lt]; lia.
Qed.

Lemma count_policies_from (net : Net) (urls : list string) :
  forall k,
    count_if ServerV1.fulfilled
             (mapi_from k (fun i url => axios_settle default_validateStatus (net i url)) urls)
    <= count_if delivered
                (mapi_from k (fun i url => axios_settle webhook_validateStatus (net i url)) urls).
Proof.
  induction urls as [| u urls IH]; intros k; cbn [mapi_from].
  - rewrite !count_if_nil. lia.
  - rewrite !count_if_cons. specialize (IH (S k)).
    pose proof (fulfilled_then_delivered (net k u)) as H.
    destruct (ServerV1.fulfilled _); [rewrite H by reflexivity; lia |].
    destruct (delivered _); lia.
Qed.

(** X6.  On the same network and the same non-empty list, the
    [webhookSuccess] the upload server replies with never exceeds the
    [webhookSuccess] [/api/claims] of the full server.js, and of index.js,
    replies with: every target the former counts is a success for the
    latter. *)
Theorem upload_server_counts_fewer
        (env : option string) (fileSaved : bool) (net : Net) :
  webhook_urls env <> [] ->
  exists a b,
    reply_number "webhookSuccess" (ServerV1.claims_webhooks env fileSaved net) = Some a
    /\ reply_number "webhookSuccess" (Server.claims_webhooks env net) = Some b
    /\ reply_number "webhookSuccess" (Index.claims_webhooks env net) = Some b
    /\ 0 <= a <= b.
Proof.
  intros Hne. destruct (claims_webhooks_nonempty env net Hne) as (ES & EI & _).
  exists (count_if ServerV1.fulfilled
                   (settle_all default_validateStatus net (webhook_urls env))),
         (count_if delivered (settle_all webhook_validateStatus net (webhook_urls env))).
  rewrite ES, EI.
  unfold ServerV1.claims_webhooks, ServerV1.claims_report,
    Server.claims_report, Index.claims_report.
  rewrite forEach_count. cbn. repeat split.
  - apply count_if_bounds.
  - apply count_policies_from.
Qed.

Lemma upload_server_counts_fewer_witness :
  exists a b,
    reply_number "webhookSuccess"
      (ServerV1.claims_webhooks (Some "http://a.example,http://b.example") true
         (fun i _ => match i with
                     | O => Responded 200 JNull
                     | _ => Responded 304 JNull
                     end)) = Some a
    /\ reply_number "webhookSuccess"
         (Server.claims_webhooks (Some "http://a.example,http://b.example")
            (fun i _ => match i with
                        | O => Responded 200 JNull
                        | _ => Responded 304 JNull
                        end)) = Some b
    /\ 0 <= a <= b.
Proof.
  destruct (upload_server_counts_fewer
              (Some "http://a.example,http://b.example") true
              (fun i _ => match i with
                          | O => Responded 200 JNull
                          | _ => Responded 304 JNull
                          end)
              ltac:(discriminate)) as (a & b & Ha & Hb & _ & Hab).
  exists a, b. split; [exact Ha |]. split; [exact Hb | exact Hab].
Defined.

(** ** More on the token cache *)

Lemma run_try_catch {A : Type} (net : Request -> NetOutcome) (p : Prog A)
      (h : JSError -> Prog A) :
  forall c,
    run net (try_catch p h) c
    = match run net p c with
      | (c1, Returned a, tr) => (c1, Returned a, tr)
      | (c1, Thrown e, tr) =>
          let '(c2, r, tr2) := run net (h e) c1 in (c2, r, (tr ++ tr2)%list)
      end.
Proof.
  induction p as [a | e | k IH | c' k IH | r k IH]; intros c; cbn.
  - reflexivity.
  - destruct (run net (h e) c) as [[c2 res] tr2]. reflexivity.
  - apply IH.
  - apply IH.
  - rewrite IH. destruct (run net (k (net r)) c) as [[c1 [a | e]] tr]; cbn;
      [| destruct (run net (h e) c1) as [[c2 res] tr2]]; reflexivity.
Qed.

Lemma cached_at_initial (now : Z) : cached_at now initial = false.
Proof. reflexivity. Qed.

Lemma run_refresh_route (net : Request -> NetOutcome) (now : Z) (c : Cache) :
  run net (Server.refresh_token_route now) c = refresh_result now (net exchange_req).
Proof.
  unfold Server.refresh_token_route. cbn [bind set_token set_expiry run].
  change {| zohoAccessToken := JNull; tokenExpiryTime := None |} with initial.
  now rewrite run_server_get, cached_at_initial.
Qed.

(** X7.  [GET /api/zoho/refresh-token] never uses what is cached: from any
    cache it sends one token exchange and no probe.  When the exchange hands
    out a credential the reply is 200 with the expiry 55 minutes after the
    request; otherwise the reply is 500 with the message of the error and
    the cache is left empty. *)
Theorem refresh_route_always_exchanges
        (toISOString : Z -> option string) (net : Request -> NetOutcome)
        (now : Z) (c : Cache) :
  run net (Server.refresh_token_reply toISOString now) c
  = match exchanged (net exchange_req) with
    | Some tok =>
        ({| zohoAccessToken := tok; tokenExpiryTime := Some (now + 55 * 60 * 1000) |},
         Returned
           match toISOString (now + 55 * 60 * 1000) with
           | Some iso =>
               {| code := 200;
                  body := JObj [("success", JBool true);
                                ("message", JStr "Token refreshed successfully");
                                ("tokenExpiry", JStr iso)] |}
           | None => refresh_failed "Invalid time value"
           end,
         [exchange_req])
    | None =>
        (initial,
         Returned (refresh_failed (message (refresh_error (net exchange_req)))),
         [exchange_req])
    end.
Proof.
  unfold Server.refresh_token_reply. rewrite run_try_catch.
  change (set_token JNull;; set_expiry None;;
          token <- Server.getZohoAccessToken now;;
          expiry <- get_expiry;;
          match toISOString (match expiry with Some e => e | None => 0 end) with
          | Some iso =>
              Ret {| code := 200;
                     body := JObj [("success", JBool true);
                                   ("message", JStr "Token refreshed successfully");
                                   ("tokenExpiry", JStr iso)] |}
          | None => Throw (Error "Invalid time value")
          end)%prog
    with (bind (Server.refresh_token_route now)
               (fun _ : JSVal =>
                  expiry <- get_expiry;;
                  match toISOString (match expiry with Some e => e | None => 0 end) with
                  | Some iso =>
                      Ret {| code := 200;
                             body := JObj [("success", JBool true);
                                           ("message", JStr "Token refreshed successfully");
                                           ("tokenExpiry", JStr iso)] |}
                  | None => Throw (Error "Invalid time value")
                  end)%prog).
  rewrite run_bind, run_refresh_route. unfold refresh_result.
  destruct (exchanged _) as [tok |]; [| reflexivity].
  cbn. change (now + fifty_five_minutes) with (now + 55 * 60 * 1000).
  destruct (toISOString _); reflexivity.
Qed.

Lemma sound_initial : sound initial.
Proof. now left. Qed.

Lemma server_refresh_ends (now : Z) (c : Cache) :
  sound c -> ends_prog sound ends_as (Server.getZohoAccessToken_refresh now) c.
Proof.
  intros H. unfold Server.getZohoAccessToken_refresh. cbn.
  split; [exact H |]. intros o c2 _.
  assert (F : sound initial /\ initial = initial) by (split; [apply sound_initial | reflexivity]).
  destruct o as [s d | m]; cbn; [| exact F].
  destruct (default_validateStatus s); cbn.
  - destruct d; cbn; try exact F.
    destruct (truthy (get_field "access_token" fields)) eqn:T; cbn; [| exact F].
    split; [right; cbn; auto | reflexivity].
  - destruct d; exact F.
Qed.

Lemma server_get_ends (now : Z) (c : Cache) :
  sound c -> ends_prog sound ends_as (Server.getZohoAccessToken now) c.
Proof.
  intros H. unfold Server.getZohoAccessToken. cbn [bind ends_prog].
  destruct (_ && _); [| now apply server_refresh_ends].
  cbn. split; [exact H |]. intros o c2 H2.
  assert (R : ends_prog sound ends_as (Server.getZohoAccessToken_refresh now) initial)
    by (apply server_refresh_ends, sound_initial).
  destruct o as [s d | m]; cbn; [| exact R].
  destruct (default_validateStatus s); cbn; [| exact R].
  destruct (s =? 200); cbn; [split; [exact H2 | reflexivity] | exact R].
Qed.

Lemma server_handler_ends (p : Prog JSVal) (c : Cache) :
  Server.handler p -> sound c -> ends_prog sound ends_as p c.
Proof.
  intros [now | now] H.
  - now apply server_get_ends.
  - unfold Server.refresh_token_route. cbn [bind set_token set_expiry ends_prog].
    apply server_get_ends, sound_initial.
Qed.

Lemma advance_ends (I : Cache -> Prop) (Q : Cache -> Outcome JSVal -> Prop)
      (p : Prog JSVal) :
  forall c, ends_prog I Q p c ->
            I (fst (advance p c))
            /\ match snd (advance p c) with
               | Finished res => Q (fst (advance p c)) res
               | Waiting _ k => forall o c2, I c2 -> ends_prog I Q (k o) c2
               end.
Proof.
  induction p as [a | e | k IH | c' k IH | r k IH]; intros c H; cbn in *;
    try exact H; now apply IH.
Qed.

Lemma server_tasks_end (s : Sys) :
  reachable Server.handler s ->
  sound (cache s) /\ Forall (task_ends sound ends_as) (tasks s).
Proof.
  intros R. induction R as [| s s' _ [Hc Ht] Hturn].
  - split; [apply sound_initial | constructor].
  - destruct Hturn as [s p Hp | s i r k o Hi]; cbn [cache tasks].
    + destruct (advance_ends sound ends_as p (cache s)) as [H1 H2];
        [now apply server_handler_ends |].
      split; [exact H1 |]. apply Forall_app. split; [exact Ht |].
      constructor; [| constructor].
      destruct (snd (advance p (cache s))); [exact I | exact H2].
    + assert (K : task_ends sound ends_as (Waiting r k)).
      { rewrite Forall_forall in Ht. apply Ht. eapply nth_error_In; eauto. }
      destruct (advance_ends sound ends_as (k o) (cache s)) as [H1 H2]; [now apply K |].
      split; [exact H1 |]. apply Forall_update_nth; [exact Ht |].
      destruct (snd (advance (k o) (cache s))); [exact I | exact H2].
Qed.

(** X8.  In server.js, however the handlers interleave: at every
    suspension the cache is empty or holds a truthy token with an expiry;
    and whenever a suspended call is resumed, with whatever answer, the
    cache is again so, and if the call ends there it returns the value
    [zohoAccessToken] holds at that moment (a truthy token, or [null] when
    the cache was emptied while the call waited for its probe) or throws
    with the cache empty. *)
Theorem server_call_postcondition (s : Sys) :
  reachable Server.handler s ->
  sound (cache s)
  /\ (forall p, Server.handler p -> sound (fst (advance p (cache s))))
  /\ (forall i t o,
         nth_error (tasks s) i = Some t ->
         resumed_well t (resume t o (cache s))).
Proof.
  intros R. destruct (server_tasks_end s R) as [Hc Ht].
  split; [exact Hc |]. split.
  - intros p Hp.
    now destruct (advance_ends sound ends_as p (cache s)
                               (server_handler_ends p (cache s) Hp Hc)).
  - intros i t o Hi. unfold resumed_well.
    rewrite Forall_forall in Ht. specialize (Ht t (nth_error_In _ _ Hi)).
    destruct t as [res | r k]; cbn [resume fst snd]; [split; [exact Hc | exact I] |].
    destruct (advance_ends sound ends_as (k o) (cache s) (Ht o (cache s) Hc)) as [H1 H2].
    split; [exact H1 |].
    destruct (snd (advance (k o) (cache s))); [exact H2 | exact I].
Qed.

Lemma server_call_postcondition_witness :
  sound (cache boot)
  /\ resumed_well
       (snd (advance (Server.getZohoAccessToken 1700000000000) initial))
       (resume (snd (advance (Server.getZohoAccessToken 1700000000000) initial))
               (Responded 200 (JObj [("access_token", JStr "1000.abc")]))
               initial).
Proof.
  split.
  - apply (proj1 (server_call_postcondition boot (reach_boot Server.handler))).
  - apply (proj2 (proj2 (server_call_postcondition
             {| cache := initial;
                tasks := [snd (advance (Server.getZohoAccessToken 1700000000000)
                                       initial)] |}
             (reach_turn Server.handler boot _ (reach_boot Server.handler)
                (turn_start Server.handler boot _
                            (Server.handler_get 1700000000000)))))
           0%nat _ (Responded 200 (JObj [("access_token", JStr "1000.abc")]))
           eq_refl).
Defined.

(** X9.  One call sends at most one probe and at most one exchange, the
    probe first, and never repeats a request: the requests of a call of
    server.js are the probe, the probe then the exchange, or the exchange;
    those of a call of index.js are none or the exchange. *)
Theorem request_budget (net : Request -> NetOutcome) (now : Z) (c : Cache) :
  (trace_of (run net (Server.getZohoAccessToken now) c)
   = [probe_req (zohoAccessToken c)]
   \/ trace_of (run net (Server.getZohoAccessToken now) c)
      = [probe_req (zohoAccessToken c); exchange_req]
   \/ trace_of (run net (Server.getZohoAccessToken now) c) = [exchange_req])
  /\ (trace_of (run net (Index.getZohoAccessToken now) c) = []
      \/ trace_of (run net (Index.getZohoAccessToken now) c) = [index_exchange_req]).
Proof.
  rewrite run_server_get, run_index_get. unfold refresh_result, index_result.
  destruct (cached_at now c).
  - split; [| left; reflexivity].
    destruct (probe_passes _); [left; reflexivity |].
    right; left. destruct (exchanged _); reflexivity.
  - split.
    + right; right. destruct (exchanged _); reflexivity.
    + right. destruct (axios_settle _ _) as [v | e]; [| reflexivity].
      destruct (data v); reflexivity.
Qed.

Lemma exchange_sets_cache (v : Variant) (T : Z) (net : Request -> NetOutcome)
      (c c1 : Cache) (tok : JSVal) (tr : list Request) :
  run net (acquire v T) c = (c1, Returned tok, tr) ->
  (0 < exchanges tr)%nat ->
  c1 = {| zohoAccessToken := tok; tokenExpiryTime := Some (T + fifty_five_minutes) |}.
Proof.
  destruct v; cbn [acquire].
  - rewrite run_server_get. unfold refresh_result.
    destruct (cached_at T c); [destruct (probe_passes _) |];
      try destruct (exchanged _);
      intros E Hex; inversion E; subst; cbn in Hex; try lia; reflexivity.
  - rewrite run_index_get. unfold index_result.
    destruct (cached_at T c).
    + intros E Hex; inversion E; subst; cbn in Hex; lia.
    + destruct (axios_settle _ _) as [r | e]; [| discriminate].
      destruct (data r); intros E Hex; inversion E; subst; reflexivity.
Qed.

(** X10.  While the cache holds a truthy token with the expiry an
    exchange at [T] wrote, a call at [T'] before [T] + 55 minutes sends no
    exchange.  In index.js it returns that token at once, without
    suspending.  In server.js it suspends on the probe of that token and,
    when the probe answers 200, returns what [zohoAccessToken] holds at that
    moment, leaving the cache alone: the same token when no handler assigned
    the variable in between. *)
Theorem reuse_within_window (T T' : Z) (tok : JSVal) :
  truthy tok = true ->
  0 <= T ->
  T' < T + 55 * 60 * 1000 ->
  advance (Index.getZohoAccessToken T')
          {| zohoAccessToken := tok; tokenExpiryTime := Some (T + 55 * 60 * 1000) |}
  = ({| zohoAccessToken := tok; tokenExpiryTime := Some (T + 55 * 60 * 1000) |},
     Finished (Returned tok))
  /\ fst (advance (Server.getZohoAccessToken T')
                  {| zohoAccessToken := tok;
                     tokenExpiryTime := Some (T + 55 * 60 * 1000) |})
     = {| zohoAccessToken := tok; tokenExpiryTime := Some (T + 55 * 60 * 1000) |}
  /\ pending (snd (advance (Server.getZohoAccessToken T')
                           {| zohoAccessToken := tok;
                              tokenExpiryTime := Some (T + 55 * 60 * 1000) |}))
     = Some (probe_req tok)
  /\ (forall (o : NetOutcome) (c2 : Cache),
         probe_passes o = true ->
         resume (snd (advance (Server.getZohoAccessToken T')
                              {| zohoAccessToken := tok;
                                 tokenExpiryTime := Some (T + 55 * 60 * 1000) |}))
                o c2
         = (c2, Finished (Returned (zohoAccessToken c2)))).
Proof.
  intros Ht H0 Hlt.
  assert (Hc : cached_at T'
                 {| zohoAccessToken := tok;
                    tokenExpiryTime := Some (T + 55 * 60 * 1000) |} = true).
  { unfold cached_at. cbn. rewrite Ht. cbn.
    apply andb_true_intro. split.
    - apply negb_true_iff, Z.eqb_neq. lia.
    - apply Z.ltb_lt. exact Hlt. }
  destruct (advance_server_get_cached T' _ Hc) as [A1 A2].
  refine (conj _ (conj A1 (conj A2 _))).
  - unfold Index.getZohoAccessToken. cbn [bind advance].
    fold (cached_at T' {| zohoAccessToken := tok;
                          tokenExpiryTime := Some (T + 55 * 60 * 1000) |}).
    now rewrite Hc.
  - intros o c2 P. now apply resume_after_passed_probe.
Qed.

Lemma reuse_within_window_witness :
  advance (Index.getZohoAccessToken 1700000600000)
          {| zohoAccessToken := JStr "1000.abc";
             tokenExpiryTime := Some (1700000000000 + 55 * 60 * 1000) |}
  = ({| zohoAccessToken := JStr "1000.abc";
        tokenExpiryTime := Some (1700000000000 + 55 * 60 * 1000) |},
     Finished (Returned (JStr "1000.abc"))).
Proof.
  apply (proj1 (reuse_within_window 1700000000000 1700000600000 (JStr "1000.abc")
                                    eq_refl ltac:(lia) ltac:(lia))).
Defined.

Lemma start_all_unusable (get : Z -> Prog JSVal) (req : Request) :
  (forall now, fst (advance (get now) initial) = initial
               /\ pending (snd (advance (get now) initial)) = Some req) ->
  forall (handler : Prog JSVal -> Prop),
    (forall now, handler (get now)) ->
    forall (nows : list Z) (s : Sys),
      reachable handler s -> cache s = initial ->
      reachable handler (start_all get nows s)
      /\ cache (start_all get nows s) = initial
      /\ map pending (tasks (start_all get nows s))
         = (map pending (tasks s) ++ map (fun _ => Some req) nows)%list.
Proof.
  intros Hget handler Hh nows.
  induction nows as [| now nows IH]; intros s Hr Hc; cbn [start_all map].
  - rewrite app_nil_r. auto.
  - destruct (Hget now) as [H1 H2]. rewrite Hc.
    edestruct (IH {| cache := fst (advance (get now) initial);
                     tasks := (tasks s ++ [snd (advance (get now) initial)])%list |})
      as (R & C & P).
    + rewrite <- Hc. apply (reach_turn handler s); [exact Hr |].
      apply turn_start, Hh.
    + exact H1.
    + split; [exact R |]. split; [exact C |].
      rewrite P. cbn [tasks]. rewrite map_app. cbn [map]. rewrite H2.
      now rewrite <- app_assoc.
Qed.

(** X11.  Nothing coalesces concurrent refreshes: when calls arrive on the
    empty cache one after the other before any answer is back, every one of
    them is left waiting for a token exchange of its own, in server.js and
    in index.js alike. *)
Theorem concurrent_calls_each_exchange (nows : list Z) :
  (reachable Server.handler (start_all Server.getZohoAccessToken nows boot)
   /\ cache (start_all Server.getZohoAccessToken nows boot) = initial
   /\ map pending (tasks (start_all Server.getZohoAccessToken nows boot))
      = map (fun _ => Some exchange_req) nows)
  /\ (reachable Index.handler (start_all Index.getZohoAccessToken nows boot)
      /\ cache (start_all Index.getZohoAccessToken nows boot) = initial
      /\ map pending (tasks (start_all Index.getZohoAccessToken nows boot))
         = map (fun _ => Some index_exchange_req) nows).
Proof.
  split.
  - apply (start_all_unusable Server.getZohoAccessToken exchange_req
                              (fun now => conj eq_refl eq_refl)
                              Server.handler Server.handler_get nows boot);
      [apply reach_boot | reflexivity].
  - apply (start_all_unusable Index.getZohoAccessToken index_exchange_req
                              (fun now => conj eq_refl eq_refl)
                              Index.handler Index.handler_get nows boot);
      [apply reach_boot | reflexivity].
Qed.

Lemma cached_at_later (now now' : Z) (c : Cache) :
  now <= now' -> cached_at now c = false -> cached_at now' c = false.
Proof.
  unfold cached_at. intros L H.
  destruct (truthy (zohoAccessToken c)); [| reflexivity].
  destruct (truthy_time (tokenExpiryTime c)) eqn:E; [| reflexivity].
  cbn in *. destruct (tokenExpiryTime c) as [e |]; [| discriminate].
  cbn in *. apply Z.ltb_ge in H. apply Z.ltb_ge. lia.
Qed.

(** X12.  In index.js a token exchange that axios rejects (no response, or
    a status outside [200,300)) makes the call throw axios' own error,
    response included, and leaves both variables as they were; nothing
    remembers the failure, so a later call on that cache sends the exchange
    again. *)
Theorem index_failed_exchange_keeps_cache
        (net : Request -> NetOutcome) (now now' : Z) (c : Cache) (e : JSError) :
  cached_at now c = false ->
  axios_settle default_validateStatus (net index_exchange_req) = Rejected e ->
  now <= now' ->
  run net (Index.getZohoAccessToken now) c = (c, Thrown e, [index_exchange_req])
  /\ run net (Index.getZohoAccessToken now') c = (c, Thrown e, [index_exchange_req]).
Proof.
  intros Hc Hr L.
  rewrite !run_index_get, Hc, (cached_at_later now now' c L Hc).
  unfold index_result. rewrite Hr. split; reflexivity.
Qed.

Lemma index_failed_exchange_keeps_cache_witness :
  run (fun _ => Responded 400 (JObj [("error", JStr "invalid_client")]))
      (Index.getZohoAccessToken 1700000000000)
      {| zohoAccessToken := JStr "1000.old"; tokenExpiryTime := Some 1600000000000 |}
  = ({| zohoAccessToken := JStr "1000.old"; tokenExpiryTime := Some 1600000000000 |},
     Thrown {| message := "Request failed with status code 400";
               response := Some (400, JObj [("error", JStr "invalid_client")]) |},
     [index_exchange_req]).
Proof.
  apply (index_failed_exchange_keeps_cache
           (fun _ => Responded 400 (JObj [("error", JStr "invalid_client")]))
           1700000000000 1700000000001
           {| zohoAccessToken := JStr "1000.old"; tokenExpiryTime := Some 1600000000000 |}
           {| message := "Request failed with status code 400";
              response := Some (400, JObj [("error", JStr "invalid_client")]) |});
    [reflexivity | reflexivity | lia].
Defined.

Lemma run_vendors_authenticate (net : Request -> NetOutcome) (now : Z) (c : Cache) :
  run net (Server.vendors_authenticate now) c
  = match run net (Server.getZohoAccessToken now) c with
    | (c1, Returned tok, tr) => (c1, Returned (inr tok), tr)
    | (c1, Thrown e, tr) => (c1, Returned (inl (auth_failed (message e))), tr)
    end.
Proof.
  unfold Server.vendors_authenticate. rewrite run_try_catch, run_bind.
  destruct (run net (Server.getZohoAccessToken now) c) as [[c1 [tok | e]] tr]; cbn.
  - now rewrite app_nil_r.
  - now rewrite app_nil_r.
Qed.

(** X13.  [POST /api/vendors] of server.js answers a failed token exchange
    with 401 and the code AUTH_FAILED, before any CRM request: the cache is
    left empty, the details are the message of the error
    [getZohoAccessToken] threw, which wraps the upstream message whenever
    the refused response has a body. *)
Theorem vendors_reply_401_on_token_failure
        (net : Request -> NetOutcome) (now : Z) (c : Cache) :
  exchange_failed (net exchange_req) ->
  cached_at now c = false
  \/ probe_passes (net (probe_req (zohoAccessToken c))) = false ->
  (exists tr,
      run net (Server.vendors_authenticate now) c
      = (initial,
         Returned (inl (auth_failed (message (refresh_error (net exchange_req))))),
         tr)
      /\ exchanges tr = 1%nat)
  /\ (body_missing (net exchange_req) = false ->
      message (refresh_error (net exchange_req))
      = "Failed to get Zoho access token: " ++ upstream_message (net exchange_req)).
Proof.
  intros F H. split; [| apply refresh_error_message].
  destruct (failed_exchange_clears_cache now net c F H) as (tr & E & X).
  exists tr. split; [| exact X]. now rewrite run_vendors_authenticate, E.
Qed.

Lemma vendors_reply_401_on_token_failure_witness :
  exists tr,
    run (fun _ => Responded 400 (JObj [("error", JStr "invalid_client")]))
        (Server.vendors_authenticate 1700000000000) initial
    = (initial,
       Returned (inl (auth_failed
         "Failed to get Zoho access token: Request failed with status code 400")),
       tr)
    /\ exchanges tr = 1%nat.
Proof.
  apply (proj1 (vendors_reply_401_on_token_failure
                  (fun _ => Responded 400 (JObj [("error", JStr "invalid_client")]))
                  1700000000000 initial eq_refl (or_introl eq_refl))).
Defined.

(** ** Tokens and dates *)

Lemma string_length_app (a b : string) :
  String.length (a ++ b) = (String.length a + String.length b)%nat.
Proof. induction a as [| c a IH]; cbn; [reflexivity | now rewrite IH]. Qed.

Lemma string_app_inj (a a' b b' : string) :
  String.length a = String.length a' -> a ++ b = a' ++ b' -> a = a' /\ b = b'.
Proof.
  revert a'. induction a as [| c a IH]; intros [| c' a'] L E; try discriminate.
  - split; [reflexivity | exact E].
  - cbn in L, E. injection L as L. injection E as -> E.
    destruct (IH a' L E) as [-> ->]. split; reflexivity.
Qed.

Lemma prefix_app (a b : string) : String.prefix a (a ++ b) = true.
Proof.
  induction a as [| c a IH]; [destruct b; reflexivity |]. cbn.
  destruct (ascii_dec c c) as [_ | N]; [exact IH | contradiction].
Qed.

Lemma all_from_spec (p : Z -> bool) :
  forall (n : nat) (z : Z),
    all_from n z p = true ->
    forall x, z <= x < z + Z.of_nat n -> p x = true.
Proof.
  induction n as [| n IH]; intros z H x R; [lia |].
  cbn [all_from] in H. apply andb_prop in H as [Hz Hrest].
  destruct (Z.eq_dec x z) as [-> | N]; [exact Hz |].
  apply (IH (z + 1) Hrest). lia.
Qed.

Lemma pad_table :
  all_from (Z.to_nat 100) 0
           (fun n => (two_digits (pad n) =? n)
                     && Nat.eqb (String.length (pad n)) 2) = true.
Proof. vm_compute. reflexivity. Qed.

Lemma year_table :
  all_from (Z.to_nat 9000) 1000
           (fun y => (two_digits (slice_last2 (num_to_string y)) =? y mod 100)
                     && (four_digits (num_to_string y) =? y)
                     && Nat.eqb (String.length (num_to_string y)) 4
                     && Nat.eqb (String.length (slice_last2 (num_to_string y))) 2)
  = true.
Proof. vm_compute. reflexivity. Qed.

Lemma pad_spec (n : Z) :
  0 <= n <= 99 -> two_digits (pad n) = n /\ String.length (pad n) = 2%nat.
Proof.
  intros R. pose proof (all_from_spec _ _ _ pad_table n) as T.
  cbv beta in T. rewrite Z2Nat.id in T by lia.
  specialize (T ltac:(lia)). apply andb_prop in T as [A B].
  split; [now apply Z.eqb_eq | now apply Nat.eqb_eq].
Qed.

Lemma year_spec (y : Z) :
  1000 <= y <= 9999 ->
  two_digits (slice_last2 (num_to_string y)) = y mod 100
  /\ four_digits (num_to_string y) = y
  /\ String.length (num_to_string y) = 4%nat
  /\ String.length (slice_last2 (num_to_string y)) = 2%nat.
Proof.
  intros R. pose proof (all_from_spec _ _ _ year_table y) as T.
  cbv beta in T. rewrite Z2Nat.id in T by lia.
  specialize (T ltac:(lia)).
  apply andb_prop in T as [T D]. apply andb_prop in T as [T C].
  apply andb_prop in T as [A B].
  repeat split; [now apply Z.eqb_eq | now apply Z.eqb_eq
                 | now apply Nat.eqb_eq | now apply Nat.eqb_eq].
Qed.

(** X14.  For a clock with a four-digit year the tokens have a fixed
    width: the Cash Slip token is "CS" and twelve digits, the contact token
    "CE" and twelve digits, the claim number "CE" and fourteen digits. *)
Theorem token_widths (d : Date) :
  valid_date d ->
  (String.length (Server.generateToken d) = 14%nat
   /\ String.prefix "CS" (Server.generateToken d) = true)
  /\ (String.length (Server.generateContactToken d) = 14%nat
      /\ String.prefix "CE" (Server.generateContactToken d) = true)
  /\ (String.length (Server.claimNumber d) = 16%nat
      /\ String.prefix "CE" (Server.claimNumber d) = true)
  /\ Index.generateToken d = Server.generateToken d
  /\ Index.generateContactToken d = Server.generateContactToken d
  /\ Index.claimNumber d = Server.claimNumber d.
Proof.
  intros (Y & Mo & Da & H & Mi & S).
  destruct (year_spec _ Y) as (_ & _ & L4 & L2).
  destruct (pad_spec (getMonth d + 1)) as [_ LM]; [lia |].
  destruct (pad_spec (getDate d)) as [_ LD]; [lia |].
  destruct (pad_spec (getHours d)) as [_ LH]; [lia |].
  destruct (pad_spec (getMinutes d)) as [_ LI]; [lia |].
  destruct (pad_spec (getSeconds d)) as [_ LS]; [lia |].
  unfold Server.generateToken, Server.generateContactToken, Server.claimNumber.
  repeat split; try reflexivity; try apply prefix_app;
    rewrite ?string_length_app, ?L4, ?L2, ?LM, ?LD, ?LH, ?LI, ?LS; reflexivity.
Qed.

Lemma token_widths_witness :
  String.length
    (Server.generateToken
       {| getFullYear := 2026; getMonth := 0; getDate := 5;
          getHours := 7; getMinutes := 3; getSeconds := 9 |}) = 14%nat
  /\ String.prefix "CS"
       (Server.generateToken
          {| getFullYear := 2026; getMonth := 0; getDate := 5;
             getHours := 7; getMinutes := 3; getSeconds := 9 |}) = true.
Proof.
  apply (proj1 (token_widths
                  {| getFullYear := 2026; getMonth := 0; getDate := 5;
                     getHours := 7; getMinutes := 3; getSeconds := 9 |}
                  ltac:(unfold valid_date; cbn; lia))).
Defined.

Ltac peel H :=
  let H1 := fresh "P" in
  apply string_app_inj in H; [destruct H as [H1 H] | congruence].

(** X15.  Tokens tell clock readings apart: two readings with the same
    claim number are the same reading, and two readings with the same Cash
    Slip token, or the same contact token, agree on month, day, hour, minute
    and second and on the year within the century. *)
Theorem tokens_identify_the_second (d1 d2 : Date) :
  valid_date d1 -> valid_date d2 ->
  (Server.claimNumber d1 = Server.claimNumber d2 -> d1 = d2)
  /\ (Server.generateToken d1 = Server.generateToken d2
      \/ Server.generateContactToken d1 = Server.generateContactToken d2 ->
      getFullYear d1 mod 100 = getFullYear d2 mod 100
      /\ getMonth d1 = getMonth d2
      /\ getDate d1 = getDate d2
      /\ getHours d1 = getHours d2
      /\ getMinutes d1 = getMinutes d2
      /\ getSeconds d1 = getSeconds d2).
Proof.
  intros (Y1 & Mo1 & Da1 & H1 & Mi1 & S1) (Y2 & Mo2 & Da2 & H2 & Mi2 & S2).
  destruct (year_spec _ Y1) as (YA1 & YB1 & YC1 & YD1).
  destruct (year_spec _ Y2) as (YA2 & YB2 & YC2 & YD2).
  destruct (pad_spec (getMonth d1 + 1)) as [VM1 LM1]; [lia |].
  destruct (pad_spec (getMonth d2 + 1)) as [VM2 LM2]; [lia |].
  destruct (pad_spec (getDate d1)) as [VD1 LD1]; [lia |].
  destruct (pad_spec (getDate d2)) as [VD2 LD2]; [lia |].
  destruct (pad_spec (getHours d1)) as [VH1 LH1]; [lia |].
  destruct (pad_spec (getHours d2)) as [VH2 LH2]; [lia |].
  destruct (pad_spec (getMinutes d1)) as [VI1 LI1]; [lia |].
  destruct (pad_spec (getMinutes d2)) as [VI2 LI2]; [lia |].
  destruct (pad_spec (getSeconds d1)) as [VS1 LS1]; [lia |].
  destruct (pad_spec (getSeconds d2)) as [VS2 LS2]; [lia |].
  split.
  - unfold Server.claimNumber. intros E.
    change ("CE" ++ ?x) with (String "C" (String "E" x)) in E. injection E as E.
    peel E. peel E. peel E. peel E. peel E.
    assert (getFullYear d1 = getFullYear d2) by congruence.
    assert (getMonth d1 + 1 = getMonth d2 + 1) by congruence.
    assert (getDate d1 = getDate d2) by congruence.
    assert (getHours d1 = getHours d2) by congruence.
    assert (getMinutes d1 = getMinutes d2) by congruence.
    assert (getSeconds d1 = getSeconds d2) by congruence.
    destruct d1, d2; cbn in *. f_equal; lia.
  - intros [E | E].
    + unfold Server.generateToken in E.
      change ("CS" ++ ?x) with (String "C" (String "S" x)) in E. injection E as E.
      peel E. peel E. peel E. peel E. peel E.
      assert (getMonth d1 + 1 = getMonth d2 + 1) by congruence.
      repeat split; try congruence; lia.
    + unfold Server.generateContactToken in E.
      change ("CE" ++ ?x) with (String "C" (String "E" x)) in E. injection E as E.
      peel E. peel E. peel E. peel E. peel E.
      assert (getMonth d1 + 1 = getMonth d2 + 1) by congruence.
      repeat split; try congruence; lia.
Qed.

Lemma tokens_identify_the_second_witness :
  getFullYear {| getFullYear := 1926; getMonth := 10; getDate := 3;
                 getHours := 9; getMinutes := 30; getSeconds := 5 |} mod 100
  = getFullYear {| getFullYear := 2026; getMonth := 10; getDate := 3;
                   getHours := 9; getMinutes := 30; getSeconds := 5 |} mod 100
  /\ getMonth {| getFullYear := 1926; getMonth := 10; getDate := 3;
                 getHours := 9; getMinutes := 30; getSeconds := 5 |}
     = getMonth {| getFullYear := 2026; getMonth := 10; getDate := 3;
                   getHours := 9; getMinutes := 30; getSeconds := 5 |}.
Proof.
  destruct (proj2 (tokens_identify_the_second
                     {| getFullYear := 1926; getMonth := 10; getDate := 3;
                        getHours := 9; getMinutes := 30; getSeconds := 5 |}
                     {| getFullYear := 2026; getMonth := 10; getDate := 3;
                        getHours := 9; getMinutes := 30; getSeconds := 5 |}
                     ltac:(unfold valid_date; cbn; lia)
                     ltac:(unfold valid_date; cbn; lia))
                  (or_introl eq_refl)) as (Hy & Hm & _).
  split; [exact Hy | exact Hm].
Defined.

Lemma date_shaped_truthy (s : string) : date_shaped s = true -> truthy (JStr s) = true.
Proof. destruct s; [discriminate | reflexivity]. Qed.

Lemma formatDateForZoho_same (newDate : JSVal -> option string) (v : JSVal) :
  Index.formatDateForZoho newDate v = Server.formatDateForZoho newDate v.
Proof. reflexivity. Qed.

(** X16.  [formatDateForZoho] returns a string of the shape YYYY-MM-DD
    unchanged without consulting [Date], so also when it names no day of the
    calendar; its result is [null] or a string.  When [Date] prints days in
    that shape (years 0 to 9999) the result is [null] or of that shape, and
    formatting it again changes nothing.  index.js declares the same
    function. *)
Theorem formatDateForZoho_stable (newDate : JSVal -> option string) (v : JSVal) :
  (forall s, date_shaped s = true ->
             Server.formatDateForZoho newDate (JStr s) = JStr s)
  /\ (truthy v = false -> Server.formatDateForZoho newDate v = JNull)
  /\ ((forall w day, newDate w = Some day -> date_shaped day = true) ->
      (Server.formatDateForZoho newDate v = JNull
       \/ exists s, Server.formatDateForZoho newDate v = JStr s
                    /\ date_shaped s = true)
      /\ Server.formatDateForZoho newDate (Server.formatDateForZoho newDate v)
         = Server.formatDateForZoho newDate v)
  /\ Index.formatDateForZoho newDate v = Server.formatDateForZoho newDate v.
Proof.
  assert (Fix : forall s, date_shaped s = true ->
                          Server.formatDateForZoho newDate (JStr s) = JStr s).
  { intros s H. unfold Server.formatDateForZoho.
    rewrite (date_shaped_truthy s H). cbn [negb]. now rewrite H. }
  refine (conj Fix (conj _ (conj _ eq_refl))).
  - intros H. unfold Server.formatDateForZoho. now rewrite H.
  - intros Hd.
    assert (Shape : Server.formatDateForZoho newDate v = JNull
                    \/ exists s, Server.formatDateForZoho newDate v = JStr s
                                 /\ date_shaped s = true).
    { unfold Server.formatDateForZoho.
      destruct (truthy v); cbn [negb]; [| left; reflexivity].
      destruct v; try (destruct (newDate _) as [day |] eqn:E;
                       [right; exists day; split; [reflexivity | eapply Hd; eauto]
                       | left; reflexivity]).
      destruct (date_shaped s) eqn:S; [right; exists s; auto |].
      destruct (newDate _) as [day |] eqn:E;
        [right; exists day; split; [reflexivity | eapply Hd; eauto] | left; reflexivity]. }
    split; [exact Shape |].
    destruct Shape as [-> | (s & -> & S)]; [reflexivity | now apply Fix].
Qed.

Lemma formatDateForZoho_stable_witness :
  Server.formatDateForZoho (fun _ => Some "2024-01-15") (JStr "2024-02-31")
  = JStr "2024-02-31"
  /\ Server.formatDateForZoho (fun _ => Some "2024-01-15")
       (Server.formatDateForZoho (fun _ => Some "2024-01-15") (JStr "Jan 15, 2024"))
     = Server.formatDateForZoho (fun _ => Some "2024-01-15") (JStr "Jan 15, 2024").
Proof.
  split.
  - apply (proj1 (formatDateForZoho_stable (fun _ => Some "2024-01-15") JNull)).
    reflexivity.
  - apply (proj1 (proj2 (proj2 (formatDateForZoho_stable
                                  (fun _ => Some "2024-01-15")
                                  (JStr "Jan 15, 2024"))))).
    intros w day E. injection E as <-. reflexivity.
Defined.
